(** * renfield-mcp-jellyfin: the tool server of [server.py], modelled and verified

    The server turns each tool call into one authenticated GET against a
    Jellyfin server and reduces the verbose JSON answer to a compact mapping.
    The development below embeds [server.py] function by function:

    - Python values (what [resp.json()] produces, and what the tools return)
      form the type [pyval]; dictionaries are association lists in insertion
      order, because the order of keys is observable once a result is
      serialized;
    - a Python exception is the [Raise] case of [outcome];
    - the one effect of a tool, the GET issued by [_jellyfin_get], is recorded
      in a log of requests threaded through the [io] monad;
    - the module globals [JELLYFIN_URL], [JELLYFIN_API_KEY] and
      [JELLYFIN_USER_ID] are section variables, so every statement holds for
      every configuration. *)

From Stdlib Require Import ZArith List String Ascii Bool Lia DecimalString.
From Stdlib Require Import Floats.SpecFloat.
From Stdlib Require DecimalZ DecimalPos.
Import ListNotations.

Open Scope string_scope.
Open Scope Z_scope.

(** ** Python values *)

(** The values a JSON document parses to.  A Python [int] is unbounded, hence
    [Z]; a [float] is an IEEE 754 binary64 number, of which only the
    distinction between zero and non-zero is ever used here. *)
#[local] Unset Elimination Schemes.
Inductive pyval : Type :=
| PNone
| PBool (b : bool)
| PInt (z : Z)
| PFloat (f : spec_float)
| PStr (s : string)
| PList (l : list pyval)
| PDict (d : list (string * pyval)).
#[local] Set Elimination Schemes.

(** A dictionary with string keys: the bindings in insertion order.  Lookup
    takes the first binding of a key. *)
Definition dict : Type := list (string * pyval).

Inductive pyexc : Type :=
| TypeError
| AttributeError
| KeyError
| IndexError
| ValueError
| UpstreamError (what : string).

(** ** Exceptions *)

Inductive outcome (A : Type) : Type :=
| Ok (a : A)
| Raise (e : pyexc).

Arguments Ok {A} a.
Arguments Raise {A} e.

Definition bind {A B : Type} (m : outcome A) (k : A -> outcome B) : outcome B :=
  match m with
  | Ok a => k a
  | Raise e => Raise e
  end.

Declare Scope py_scope.
Delimit Scope py_scope with py.
Notation "x <- m ;; k" := (bind m (fun x => k))
  (at level 61, m at next level, right associativity) : py_scope.
Open Scope py_scope.

(** A comprehension whose body may raise: elements are handled from left to
    right and the first exception ends the evaluation. *)
Fixpoint mapM {A B : Type} (f : A -> outcome B) (l : list A) : outcome (list B) :=
  match l with
  | [] => Ok []
  | a :: rest =>
      b <- f a ;;
      bs <- mapM f rest ;;
      Ok (b :: bs)
  end.

(** ** Dictionaries *)

Fixpoint dict_get (d : dict) (k : string) : option pyval :=
  match d with
  | [] => None
  | (k', v) :: rest => if (k' =? k)%string then Some v else dict_get rest k
  end.

(** [d[k] = v]: an existing key keeps its position and takes the new value, a
    new key goes to the end. *)
Fixpoint dict_set (d : dict) (k : string) (v : pyval) : dict :=
  match d with
  | [] => [(k, v)]
  | (k', v') :: rest =>
      if (k' =? k)%string then (k, v) :: rest else (k', v') :: dict_set rest k v
  end.

(** A sequence of names with every name kept at its first occurrence only. *)
Fixpoint keep_first (l : list string) : list string :=
  match l with
  | [] => []
  | x :: rest => x :: filter (fun y => negb (y =? x)%string) (keep_first rest)
  end.

Definition dict_keys (d : dict) : list string := keep_first (map fst d).

Definition mem (k : string) (l : list string) : bool :=
  existsb (fun x => (x =? k)%string) l.

(** Lookup in a table written as a literal, as in [field_map.get(type, default)]
    and [SORT_MAP.get(sort, default)]. *)
Fixpoint table_get {V : Type} (t : list (string * V)) (k : string) : option V :=
  match t with
  | [] => None
  | (k', v) :: rest => if (k' =? k)%string then Some v else table_get rest k
  end.

Definition table_get_default {V : Type} (t : list (string * V)) (k : string) (default : V) : V :=
  match table_get t k with
  | Some v => v
  | None => default
  end.

(** ** Operations of the language *)

(** Truth value of an object, as [if x], [not x] and [x or y] test it. *)
Definition truthy (v : pyval) : bool :=
  match v with
  | PNone => false
  | PBool b => b
  | PInt z => negb (z =? 0)
  | PFloat (S754_zero _) => false
  | PFloat _ => true
  | PStr s => negb (s =? "")%string
  | PList l => negb (Nat.eqb (List.length l) 0)
  | PDict d => negb (Nat.eqb (List.length d) 0)
  end.

Definition py_or (x y : pyval) : pyval := if truthy x then x else y.

Definition is_none (v : pyval) : bool :=
  match v with
  | PNone => true
  | _ => false
  end.

(** [r.get(k, default)]: only a dictionary has the method. *)
Definition py_get_default (r : pyval) (k : string) (default : pyval) : outcome pyval :=
  match r with
  | PDict d =>
      match dict_get d k with
      | Some v => Ok v
      | None => Ok default
      end
  | _ => Raise AttributeError
  end.

(** [r.get(k)] *)
Definition py_get (r : pyval) (k : string) : outcome pyval := py_get_default r k PNone.

(** [r[k]] for a string key [k]. *)
Definition py_item (r : pyval) (k : string) : outcome pyval :=
  match r with
  | PDict d =>
      match dict_get d k with
      | Some v => Ok v
      | None => Raise KeyError
      end
  | _ => Raise TypeError
  end.

(** A text is held as the bytes of its UTF-8 encoding, while the characters of
    a [str] are code points: a character is a lead byte together with the
    continuation bytes, those from 128 to 191, that follow it. *)
Definition is_continuation (c : ascii) : bool :=
  (128 <=? nat_of_ascii c)%nat && (nat_of_ascii c <=? 191)%nat.

(** The continuation bytes at the start of a text. *)
Fixpoint continuation (s : string) : string :=
  match s with
  | "" => ""
  | String c rest => if is_continuation c then String c (continuation rest) else ""
  end.

(** A text cut into its characters. *)
Fixpoint code_points (s : string) : list string :=
  match s with
  | "" => []
  | String c rest =>
      let r := code_points rest in
      match rest, r with
      | String c' _, h :: t =>
          if is_continuation c' then String c h :: t else String c "" :: r
      | _, _ => String c "" :: r
      end
  end.

(** [x[0]]: the first element of a list, the first character of a string; a
    dictionary parsed from JSON has string keys only, so the key [0] is
    missing; other objects cannot be subscripted. *)
Definition py_first (x : pyval) : outcome pyval :=
  match x with
  | PList (v :: _) => Ok v
  | PList [] => Raise IndexError
  | PStr (String c rest) => Ok (PStr (String c (continuation rest)))
  | PStr "" => Raise IndexError
  | PDict _ => Raise KeyError
  | _ => Raise TypeError
  end.

Definition chars (s : string) : list pyval := map PStr (code_points s).

(** [for it in x]: the elements of a list, the characters of a string, the
    keys of a dictionary. *)
Definition py_iter (x : pyval) : outcome (list pyval) :=
  match x with
  | PList l => Ok l
  | PStr s => Ok (chars s)
  | PDict d => Ok (map PStr (dict_keys d))
  | _ => Raise TypeError
  end.

(** ** Text *)

(** [str(n)] for an integer. *)
Definition str_int (n : Z) : string := NilZero.string_of_int (Z.to_int n).

Fixpoint zeros (n : nat) : string :=
  match n with
  | O => ""
  | S m => String "0" (zeros m)
  end.

(** [format(n, "0<width>d")]: the decimal digits, filled with zeros between
    the sign and the digits up to [width] characters. *)
Definition format_0d (width : nat) (n : Z) : string :=
  let digits := str_int (Z.abs n) in
  if n <? 0
  then "-" ++ zeros (width - 1 - String.length digits) ++ digits
  else zeros (width - String.length digits) ++ digits.

(** The operand of [//] and [%] as an integer: [bool] is a subclass of [int]. *)
Definition as_int (v : pyval) : option Z :=
  match v with
  | PInt z => Some z
  | PBool b => Some (Z.b2z b)
  | _ => None
  end.

(** ** [_format_duration] *)

Definition _format_duration (ticks : pyval) : outcome pyval :=
  if negb (truthy ticks) then Ok PNone
  else
    match as_int ticks with
    | Some t =>
        let total_seconds := t / 10000000 in
        let minutes := total_seconds / 60 in
        let seconds := total_seconds mod 60 in
        Ok (PStr (str_int minutes ++ ":" ++ format_0d 2 seconds))
    | None =>
        match ticks with
        | PFloat _ =>
            (* the arithmetic yields floats, which the format code [d] rejects *)
            Raise ValueError
        | _ =>
            (* [//] is not defined between a str, list or dict and an int *)
            Raise TypeError
        end
    end.

(** ** Configuration from the environment *)

(** The environment of the process: [os.environ]. *)
Definition environ : Type := string -> option string.

(** [os.environ.get(k, default)] *)
Definition environ_get (env : environ) (k default : string) : string :=
  match env k with
  | Some v => v
  | None => default
  end.

(** [s.rstrip("/")]: [s] without the slashes at its end. *)
Fixpoint rstrip_slash (s : string) : string :=
  match s with
  | "" => ""
  | String c rest =>
      match rstrip_slash rest with
      | "" => if Ascii.eqb c "/" then "" else String c ""
      | String c' rest' => String c (String c' rest')
      end
  end.

(** The three assignments at the top of the module. *)
Definition env_JELLYFIN_URL (env : environ) : string :=
  rstrip_slash (environ_get env "JELLYFIN_URL" "").

Definition env_JELLYFIN_API_KEY (env : environ) : string :=
  environ_get env "JELLYFIN_API_KEY" "".

Definition env_JELLYFIN_USER_ID (env : environ) : string :=
  environ_get env "JELLYFIN_USER_ID" "".

(** * The server *)

Section Server.

(** Configuration, as the module holds it once it is loaded. *)
Variables JELLYFIN_URL JELLYFIN_API_KEY JELLYFIN_USER_ID : string.

(** [str(x)] for a float, a list or a dictionary, which is the [repr] of the
    object.  The server formats only the [Id] of an item, a string in every
    answer of Jellyfin, so the text of these three kinds of objects is left
    open: every statement holds whatever it is. *)
Variable py_repr : pyval -> string.

(** The HTTP layer below [_jellyfin_get]: the answer to a GET of a URL with
    query parameters, already parsed ([resp.json()]), or the exception of the
    client ([raise_for_status], network and parse errors). *)
Variable upstream : string * dict -> outcome pyval.

(** [f"{x}"] *)
Definition py_str (v : pyval) : string :=
  match v with
  | PStr s => s
  | PInt z => str_int z
  | PBool true => "True"
  | PBool false => "False"
  | PNone => "None"
  | _ => py_repr v
  end.

(** ** Sort mapping *)

Definition SORT_MAP : list (string * string) :=
  [ ("name", "SortName");
    ("added", "DateCreated");
    ("year", "PremiereDate");
    ("rating", "CommunityRating");
    ("random", "Random") ].

(** ** [_check_config] *)

Definition error_dict (msg : string) : pyval := PDict [("error", PStr msg)].

Definition _check_config : option pyval :=
  if negb (truthy (PStr JELLYFIN_URL)) then
    Some (error_dict "JELLYFIN_URL not configured")
  else if negb (truthy (PStr JELLYFIN_API_KEY)) then
    Some (error_dict "JELLYFIN_API_KEY not configured")
  else if negb (truthy (PStr JELLYFIN_USER_ID)) then
    Some (error_dict "JELLYFIN_USER_ID not configured")
  else None.

(** ** [_format_item] *)

(** [(x or [None])[0]] *)
Definition first_or_none (x : pyval) : outcome pyval :=
  py_first (py_or x (PList [PNone])).

(** [(x or [{}])[0].get(k)] *)
Definition first_source_get (x : pyval) (k : string) : outcome pyval :=
  src <- py_first (py_or x (PList [PDict []])) ;;
  py_get src k.

Definition extractors : list (string * (pyval -> outcome pyval)) :=
  [ ("id", fun r => py_get r "Id");
    ("name", fun r => py_get r "Name");
    ("artist", fun r => x <- py_get r "Artists" ;; first_or_none x);
    ("album_artist", fun r => py_get r "AlbumArtist");
    ("album", fun r => py_get r "Album");
    ("year", fun r => py_get r "ProductionYear");
    ("genre", fun r => x <- py_get r "Genres" ;; first_or_none x);
    ("index", fun r => py_get r "IndexNumber");
    ("duration", fun r => t <- py_get r "RunTimeTicks" ;; _format_duration t);
    ("overview", fun r => py_get r "Overview");
    ("child_count", fun r => py_get r "ChildCount");
    ("type", fun r => py_get r "Type");
    ("path", fun r => py_get r "Path");
    ("container", fun r => x <- py_get r "MediaSources" ;; first_source_get x "Container");
    ("stream_url", fun r => x <- py_get r "MediaSources" ;; first_source_get x "Path");
    ("api_stream", fun r =>
       c <- py_get r "Id" ;;
       if truthy c then
         i <- py_item r "Id" ;;
         Ok (PStr (JELLYFIN_URL ++ "/Audio/" ++ py_str i
                     ++ "/universal?api_key=" ++ JELLYFIN_API_KEY))
       else Ok PNone) ].

(** The loop of [_format_item], from a given state of [result]. *)
Fixpoint format_loop (raw : pyval) (fields : list string) (result : dict) : outcome dict :=
  match fields with
  | [] => Ok result
  | f :: rest =>
      match table_get extractors f with
      | Some extract =>
          val <- extract raw ;;
          if negb (is_none val)
          then format_loop raw rest (dict_set result f val)
          else format_loop raw rest result
      | None => format_loop raw rest result
      end
  end.

Definition _format_item (raw : pyval) (fields : list string) : outcome dict :=
  format_loop raw fields [].

(** ** The GET and its log *)

(** A request: the URL and the query parameters in the order they were set. *)
Definition request : Type := string * dict.

(** A computation that may issue requests: it extends the log of the requests
    issued so far, and ends with a value or with an exception. *)
Definition io (A : Type) : Type := list request -> outcome A * list request.

Definition io_ret {A : Type} (a : A) : io A := fun log => (Ok a, log).

Definition io_bind {A B : Type} (m : io A) (k : A -> io B) : io B :=
  fun log =>
    match m log with
    | (Ok a, log') => k a log'
    | (Raise e, log') => (Raise e, log')
    end.

Definition io_lift {A : Type} (o : outcome A) : io A := fun log => (o, log).

Notation "x <~ m ;; k" := (io_bind m (fun x => k))
  (at level 61, m at next level, right associativity) : py_scope.

Definition _jellyfin_get (path : string) (params : dict) : io pyval :=
  fun log =>
    let url := JELLYFIN_URL ++ path in
    let params := dict_set params "api_key" (PStr JELLYFIN_API_KEY) in
    (upstream (url, params), (log ++ [(url, params)])%list).

(** ** Tools *)

(** The comprehension [[_format_item(it, fields) for it in data.get("Items", [])]]. *)
Definition format_items (data : pyval) (fields : list string) : outcome (list pyval) :=
  raw_items <- py_get_default data "Items" (PList []) ;;
  its <- py_iter raw_items ;;
  mapM (fun it => m <- _format_item it fields ;; Ok (PDict m)) its.

(** The result [{"total": data.get("TotalRecordCount", 0), "items": items}]. *)
Definition envelope (data : pyval) (items : list pyval) : outcome pyval :=
  total <- py_get_default data "TotalRecordCount" (PInt 0) ;;
  Ok (PDict [("total", total); ("items", PList items)]).

Definition search_media (query type : string) (limit : Z) : io pyval :=
  match _check_config with
  | Some err => io_ret err
  | None =>
      let limit := Z.max 1 (Z.min limit 50) in
      data <~ _jellyfin_get "/Items"
                [ ("searchTerm", PStr query);
                  ("IncludeItemTypes", PStr type);
                  ("Recursive", PStr "true");
                  ("Limit", PInt limit);
                  ("Fields", PStr "Genres,Artists,AlbumArtist,Album,ProductionYear,RunTimeTicks") ] ;;
      let field_map :=
        [ ("Audio", ["id"; "name"; "artist"; "album"; "year"; "duration"; "api_stream"]);
          ("MusicAlbum", ["id"; "name"; "album_artist"; "year"; "genre"]);
          ("MusicArtist", ["id"; "name"; "genre"; "overview"]);
          ("Movie", ["id"; "name"; "year"; "genre"; "overview"]);
          ("Series", ["id"; "name"; "year"; "genre"; "overview"]) ] in
      let fields := table_get_default field_map type ["id"; "name"; "type"; "year"] in
      io_lift (items <- format_items data fields ;;
               envelope data items)
  end.

Definition list_albums (artist genre sort : string) (limit : Z) : io pyval :=
  match _check_config with
  | Some err => io_ret err
  | None =>
      let limit := Z.max 1 (Z.min limit 100) in
      let params : dict :=
        [ ("IncludeItemTypes", PStr "MusicAlbum");
          ("Recursive", PStr "true");
          ("Limit", PInt limit);
          ("SortBy", PStr (table_get_default SORT_MAP sort "SortName"));
          ("SortOrder", PStr (if mem sort ["added"; "year"] then "Descending" else "Ascending"));
          ("Fields", PStr "Genres,Artists,AlbumArtist,ProductionYear") ] in
      let params := if truthy (PStr artist) then dict_set params "Artists" (PStr artist) else params in
      let params := if truthy (PStr genre) then dict_set params "Genres" (PStr genre) else params in
      data <~ _jellyfin_get ("/Users/" ++ JELLYFIN_USER_ID ++ "/Items") params ;;
      io_lift (items <- format_items data
                          ["id"; "name"; "album_artist"; "year"; "genre"] ;;
               envelope data items)
  end.

Definition list_artists (limit : Z) : io pyval :=
  match _check_config with
  | Some err => io_ret err
  | None =>
      let limit := Z.max 1 (Z.min limit 200) in
      data <~ _jellyfin_get "/Artists"
                [ ("Limit", PInt limit);
                  ("Fields", PStr "Genres,Overview") ] ;;
      io_lift (items <- format_items data
                          ["id"; "name"; "genre"; "overview"] ;;
               envelope data items)
  end.

Definition get_album_tracks (album_id : string) : io pyval :=
  match _check_config with
  | Some err => io_ret err
  | None =>
      data <~ _jellyfin_get ("/Users/" ++ JELLYFIN_USER_ID ++ "/Items")
                [ ("ParentId", PStr album_id);
                  ("IncludeItemTypes", PStr "Audio");
                  ("SortBy", PStr "IndexNumber");
                  ("Fields", PStr "Artists,Album,RunTimeTicks") ] ;;
      io_lift (items <- format_items data
                          ["id"; "name"; "index"; "artist"; "duration"; "api_stream"] ;;
               envelope data items)
  end.

Definition get_artist_albums (artist_id : string) : io pyval :=
  match _check_config with
  | Some err => io_ret err
  | None =>
      data <~ _jellyfin_get ("/Users/" ++ JELLYFIN_USER_ID ++ "/Items")
                [ ("ArtistIds", PStr artist_id);
                  ("IncludeItemTypes", PStr "MusicAlbum");
                  ("Recursive", PStr "true");
                  ("SortBy", PStr "PremiereDate");
                  ("SortOrder", PStr "Descending");
                  ("Fields", PStr "Genres,ProductionYear") ] ;;
      io_lift (items <- format_items data
                          ["id"; "name"; "year"; "genre"] ;;
               envelope data items)
  end.

(** One entry of [list_genres]: [{"id": it.get("Id"), "name": it.get("Name")}]. *)
Definition genre_entry (it : pyval) : outcome pyval :=
  i <- py_get it "Id" ;;
  n <- py_get it "Name" ;;
  Ok (PDict [("id", i); ("name", n)]).

Definition list_genres : io pyval :=
  match _check_config with
  | Some err => io_ret err
  | None =>
      data <~ _jellyfin_get "/MusicGenres" [ ("Limit", PInt 50) ] ;;
      io_lift (raw_items <- py_get_default data "Items" (PList []) ;;
               its <- py_iter raw_items ;;
               items <- mapM genre_entry its ;;
               envelope data items)
  end.

Definition get_recent (type : string) (limit : Z) : io pyval :=
  match _check_config with
  | Some err => io_ret err
  | None =>
      let limit := Z.max 1 (Z.min limit 50) in
      data <~ _jellyfin_get ("/Users/" ++ JELLYFIN_USER_ID ++ "/Items/Latest")
                [ ("IncludeItemTypes", PStr type);
                  ("Limit", PInt limit);
                  ("Fields", PStr "Genres,Artists,AlbumArtist,Album,ProductionYear") ] ;;
      io_lift (raw_items <- match data with
                            | PList _ => Ok data
                            | _ => py_get_default data "Items" (PList [])
                            end ;;
               let field_map :=
                 [ ("Audio", ["id"; "name"; "artist"; "album"; "year"]);
                   ("MusicAlbum", ["id"; "name"; "album_artist"; "year"; "genre"]);
                   ("Movie", ["id"; "name"; "year"; "genre"]);
                   ("Series", ["id"; "name"; "year"; "genre"]) ] in
               let fields := table_get_default field_map type ["id"; "name"; "type"; "year"] in
               its <- py_iter raw_items ;;
               items <- mapM (fun it => m <- _format_item it fields ;; Ok (PDict m)) its ;;
               Ok (PDict [ ("total", PInt (Z.of_nat (List.length items)));
                           ("items", PList items) ]))
  end.

Definition get_favorites (limit : Z) : io pyval :=
  match _check_config with
  | Some err => io_ret err
  | None =>
      let limit := Z.max 1 (Z.min limit 100) in
      data <~ _jellyfin_get ("/Users/" ++ JELLYFIN_USER_ID ++ "/Items")
                [ ("IncludeItemTypes", PStr "Audio,MusicAlbum");
                  ("Recursive", PStr "true");
                  ("Filters", PStr "IsFavorite");
                  ("Limit", PInt limit);
                  ("Fields", PStr "Genres,Artists,Album,ProductionYear,RunTimeTicks") ] ;;
      io_lift (items <- format_items data
                          ["id"; "name"; "type"; "artist"; "album"; "year"; "duration"] ;;
               envelope data items)
  end.

Definition get_playlists (limit : Z) : io pyval :=
  match _check_config with
  | Some err => io_ret err
  | None =>
      let limit := Z.max 1 (Z.min limit 100) in
      data <~ _jellyfin_get ("/Users/" ++ JELLYFIN_USER_ID ++ "/Items")
                [ ("IncludeItemTypes", PStr "Playlist");
                  ("Recursive", PStr "true");
                  ("Limit", PInt limit);
                  ("Fields", PStr "ChildCount,Overview") ] ;;
      io_lift (items <- format_items data
                          ["id"; "name"; "child_count"; "overview"] ;;
               envelope data items)
  end.

Definition list_movies (genre sort : string) (limit : Z) : io pyval :=
  match _check_config with
  | Some err => io_ret err
  | None =>
      let limit := Z.max 1 (Z.min limit 100) in
      let params : dict :=
        [ ("IncludeItemTypes", PStr "Movie");
          ("Recursive", PStr "true");
          ("Limit", PInt limit);
          ("SortBy", PStr (table_get_default SORT_MAP sort "DateCreated"));
          ("SortOrder", PStr (if mem sort ["added"; "year"; "rating"]
                              then "Descending" else "Ascending"));
          ("Fields", PStr "Genres,ProductionYear,Overview,CommunityRating") ] in
      let params := if truthy (PStr genre) then dict_set params "Genres" (PStr genre) else params in
      data <~ _jellyfin_get ("/Users/" ++ JELLYFIN_USER_ID ++ "/Items") params ;;
      io_lift (items <- format_items data
                          ["id"; "name"; "year"; "genre"; "overview"] ;;
               envelope data items)
  end.

Definition list_series (genre sort : string) (limit : Z) : io pyval :=
  match _check_config with
  | Some err => io_ret err
  | None =>
      let limit := Z.max 1 (Z.min limit 100) in
      let params : dict :=
        [ ("IncludeItemTypes", PStr "Series");
          ("Recursive", PStr "true");
          ("Limit", PInt limit);
          ("SortBy", PStr (table_get_default SORT_MAP sort "DateCreated"));
          ("SortOrder", PStr (if mem sort ["added"; "year"; "rating"]
                              then "Descending" else "Ascending"));
          ("Fields", PStr "Genres,ProductionYear,Overview,CommunityRating") ] in
      let params := if truthy (PStr genre) then dict_set params "Genres" (PStr genre) else params in
      data <~ _jellyfin_get ("/Users/" ++ JELLYFIN_USER_ID ++ "/Items") params ;;
      io_lift (items <- format_items data
                          ["id"; "name"; "year"; "genre"; "overview"] ;;
               envelope data items)
  end.

Definition get_stream_url (item_id : string) : io pyval :=
  match _check_config with
  | Some err => io_ret err
  | None =>
      data <~ _jellyfin_get ("/Users/" ++ JELLYFIN_USER_ID ++ "/Items/" ++ item_id)
                [ ("Fields", PStr "MediaSources,Path") ] ;;
      io_lift (m <- _format_item data ["id"; "name"; "stream_url"; "container"; "api_stream"] ;;
               Ok (PDict m))
  end.

Definition library_stats : io pyval :=
  match _check_config with
  | Some err => io_ret err
  | None =>
      data <~ _jellyfin_get "/Items/Counts" [] ;;
      io_lift (songs <- py_get_default data "SongCount" (PInt 0) ;;
               albums <- py_get_default data "AlbumCount" (PInt 0) ;;
               artists <- py_get_default data "ArtistCount" (PInt 0) ;;
               movies <- py_get_default data "MovieCount" (PInt 0) ;;
               series <- py_get_default data "SeriesCount" (PInt 0) ;;
               episodes <- py_get_default data "EpisodeCount" (PInt 0) ;;
               Ok (PDict [ ("songs", songs); ("albums", albums); ("artists", artists);
                           ("movies", movies); ("series", series); ("episodes", episodes) ]))
  end.

(** ** Dispatch *)

(** A call of one of the thirteen tools with its arguments, as the MCP runtime
    hands it over once the schema of the tool has been checked. *)
Inductive tool_call : Type :=
| Call_search_media (query type : string) (limit : Z)
| Call_list_albums (artist genre sort : string) (limit : Z)
| Call_list_artists (limit : Z)
| Call_get_album_tracks (album_id : string)
| Call_get_artist_albums (artist_id : string)
| Call_list_genres
| Call_get_recent (type : string) (limit : Z)
| Call_get_favorites (limit : Z)
| Call_get_playlists (limit : Z)
| Call_list_movies (genre sort : string) (limit : Z)
| Call_list_series (genre sort : string) (limit : Z)
| Call_get_stream_url (item_id : string)
| Call_library_stats.

Definition call_tool (c : tool_call) : io pyval :=
  match c with
  | Call_search_media query type limit => search_media query type limit
  | Call_list_albums artist genre sort limit => list_albums artist genre sort limit
  | Call_list_artists limit => list_artists limit
  | Call_get_album_tracks album_id => get_album_tracks album_id
  | Call_get_artist_albums artist_id => get_artist_albums artist_id
  | Call_list_genres => list_genres
  | Call_get_recent type limit => get_recent type limit
  | Call_get_favorites limit => get_favorites limit
  | Call_get_playlists limit => get_playlists limit
  | Call_list_movies genre sort limit => list_movies genre sort limit
  | Call_list_series genre sort limit => list_series genre sort limit
  | Call_get_stream_url item_id => get_stream_url item_id
  | Call_library_stats => library_stats
  end.

(** ** Notions used in the statements *)

(** The names [_format_item] knows, in the order of its docstring and table. *)
Definition vocabulary : list string :=
  [ "id"; "name"; "artist"; "album_artist"; "album"; "year"; "genre"; "index";
    "duration"; "overview"; "child_count"; "type"; "path"; "container";
    "stream_url"; "api_stream" ].

(** [extractors[f](raw)]: the value extracted for the name [f]. *)
Definition extract (f : string) (raw : pyval) : outcome pyval :=
  match table_get extractors f with
  | Some e => e raw
  | None => Raise KeyError
  end.

(** The name [f] is known and its extracted value is not [None]. *)
Definition present (raw : pyval) (f : string) : bool :=
  match extract f raw with
  | Ok v => negb (is_none v)
  | Raise _ => false
  end.

(** What one turn of the loop of [_format_item] does to [result] when the
    extractor does not raise, and the loop as a whole. *)
Definition project_step (raw : pyval) (result : dict) (f : string) : dict :=
  match extract f raw with
  | Ok v => if is_none v then result else dict_set result f v
  | Raise _ => result
  end.

Definition project (raw : pyval) (fields : list string) (result : dict) : dict :=
  fold_left (project_step raw) fields result.

(** The shape of an item in the answers of Jellyfin: an object whose [Artists]
    and [Genres] are lists, whose [MediaSources] is a list of objects and whose
    [RunTimeTicks] is an integer, each of them possibly null or missing. *)
Definition list_or_absent (o : option pyval) : bool :=
  match o with
  | None | Some PNone | Some (PList _) => true
  | _ => false
  end.

Definition sources_or_absent (o : option pyval) : bool :=
  match o with
  | None | Some PNone | Some (PList []) | Some (PList (PDict _ :: _)) => true
  | _ => false
  end.

Definition int_or_absent (o : option pyval) : bool :=
  match o with
  | None | Some PNone | Some (PInt _) => true
  | _ => false
  end.

Definition item_shaped (raw : pyval) : bool :=
  match raw with
  | PDict d =>
      list_or_absent (dict_get d "Artists")
      && list_or_absent (dict_get d "Genres")
      && sources_or_absent (dict_get d "MediaSources")
      && int_or_absent (dict_get d "RunTimeTicks")
  | _ => false
  end.

(** The value of a key of an object, [None] when the key is missing. *)
Definition field_of (d : dict) (k : string) : pyval :=
  match dict_get d k with
  | Some v => v
  | None => PNone
  end.

(** An object none of whose keys is bound to [None]. *)
Definition no_null (p : pyval) : Prop :=
  exists m : dict, p = PDict m /\ forall k, dict_get m k <> Some PNone.

(** The entry [list_genres] makes of an upstream object. *)
Definition genre_of (it : dict) : pyval :=
  PDict [("id", field_of it "Id"); ("name", field_of it "Name")].

(** A decimal digit and a number below one hundred written with two digits. *)
Definition digit (d : Z) : ascii := ascii_of_nat (48 + Z.to_nat d).

Definition two_digits (n : Z) : string :=
  String (digit (n / 10)) (String (digit (n mod 10)) "").

(** The [limit] argument of a call, for the tools that take one, and the
    upper end of the range the tool documents for it. *)
Definition limit_of (c : tool_call) : option Z :=
  match c with
  | Call_search_media _ _ limit
  | Call_list_albums _ _ _ limit
  | Call_list_artists limit
  | Call_get_recent _ limit
  | Call_get_favorites limit
  | Call_get_playlists limit
  | Call_list_movies _ _ limit
  | Call_list_series _ _ limit => Some limit
  | _ => None
  end.

Definition limit_cap (c : tool_call) : option Z :=
  match c with
  | Call_search_media _ _ _ => Some 50
  | Call_list_albums _ _ _ _ => Some 100
  | Call_list_artists _ => Some 200
  | Call_get_recent _ _ => Some 50
  | Call_get_favorites _ => Some 100
  | Call_get_playlists _ => Some 100
  | Call_list_movies _ _ _ => Some 100
  | Call_list_series _ _ _ => Some 100
  | _ => None
  end.

(** A run of [n] slashes. *)
Fixpoint slashes (n : nat) : string :=
  match n with
  | O => ""
  | S m => String "/" (slashes m)
  end.

(** A call with its [limit] argument replaced, when it has one. *)
Definition with_limit (c : tool_call) (n : Z) : tool_call :=
  match c with
  | Call_search_media query type _ => Call_search_media query type n
  | Call_list_albums artist genre sort _ => Call_list_albums artist genre sort n
  | Call_list_artists _ => Call_list_artists n
  | Call_get_recent type _ => Call_get_recent type n
  | Call_get_favorites _ => Call_get_favorites n
  | Call_get_playlists _ => Call_get_playlists n
  | Call_list_movies genre sort _ => Call_list_movies genre sort n
  | Call_list_series genre sort _ => Call_list_series genre sort n
  | _ => c
  end.

(** The tools that answer with the envelope of projected items and the total
    of the upstream. *)
Definition is_listing (c : tool_call) : bool :=
  match c with
  | Call_search_media _ _ _
  | Call_list_albums _ _ _ _
  | Call_list_artists _
  | Call_get_album_tracks _
  | Call_get_artist_albums _
  | Call_get_favorites _
  | Call_get_playlists _
  | Call_list_movies _ _ _
  | Call_list_series _ _ _ => true
  | _ => false
  end.

(** The tools whose endpoint is under [/Users/{JELLYFIN_USER_ID}]. *)
Definition user_scoped (c : tool_call) : bool :=
  match c with
  | Call_search_media _ _ _
  | Call_list_artists _
  | Call_list_genres
  | Call_library_stats => false
  | _ => true
  end.

(** The value under a key of an upstream object, [0] when the key is missing:
    [d.get(k, 0)]. *)
Definition count_of (d : dict) (k : string) : pyval :=
  match dict_get d k with
  | Some v => v
  | None => PInt 0
  end.

(** The keys of a raw item that the extractors read. *)
Definition read_keys : list string :=
  [ "Id"; "Name"; "Artists"; "AlbumArtist"; "Album"; "ProductionYear"; "Genres";
    "IndexNumber"; "RunTimeTicks"; "Overview"; "ChildCount"; "Type"; "Path";
    "MediaSources" ].

(** The projection of an upstream item onto a list of fields. *)
Definition projects (fields : list string) (it p : pyval) : Prop :=
  exists m : dict, _format_item it fields = Ok m /\ p = PDict m.

(** The name [f] has been dealt with in [acc]: its extractor does not raise and
    its value, when there is one, is bound; asking for it again changes nothing. *)
Definition settled (raw : pyval) (acc : dict) (f : string) : Prop :=
  match table_get extractors f with
  | Some e => exists v, e raw = Ok v /\ (is_none v = true \/ dict_get acc f = Some v)
  | None => True
  end.

(** ** Samples *)

(** The configuration, items and upstream answers of [tests/test_server.py]. *)
Definition sample_url : string := "http://jellyfin.local:8096".
Definition sample_key : string := "test-api-key".
Definition sample_user : string := "test-user-id".

(** A stand-in for [repr]; no sample formats a float, a list or a dictionary. *)
Definition sample_repr (v : pyval) : string := "<object>".

Definition sample_song_object : dict :=
  [ ("Id", PStr "abc123");
    ("Name", PStr "Bohemian Rhapsody");
    ("Artists", PList [PStr "Queen"]);
    ("Album", PStr "A Night at the Opera");
    ("ProductionYear", PInt 1975);
    ("RunTimeTicks", PInt 3550000000) ].

Definition sample_song : pyval := PDict sample_song_object.

Definition sample_albums : list pyval :=
  [ PDict [ ("Id", PStr "r1"); ("Name", PStr "New Album"); ("AlbumArtist", PStr "Band");
            ("ProductionYear", PInt 2025); ("Genres", PList [PStr "Pop"]) ];
    PDict [ ("Id", PStr "r2"); ("Name", PStr "Another Album"); ("AlbumArtist", PStr "Solo");
            ("ProductionYear", PInt 2024); ("Genres", PList [PStr "Rock"]) ] ].

Definition sample_genres : list dict :=
  [ [ ("Id", PStr "g1"); ("Name", PStr "Rock") ];
    [ ("Name", PStr "Jazz") ];
    [ ] ].

(** Upstreams that give the same answer to every request. *)
Definition upstream_empty (r : string * dict) : outcome pyval := Ok (PDict []).

Definition upstream_latest (r : string * dict) : outcome pyval := Ok (PList sample_albums).

Definition upstream_albums (r : string * dict) : outcome pyval :=
  Ok (PDict [("TotalRecordCount", PInt 40); ("Items", PList sample_albums)]).

Definition upstream_genres (r : string * dict) : outcome pyval :=
  Ok (PDict [("TotalRecordCount", PInt 3); ("Items", PList (map PDict sample_genres))]).

(** An upstream that is down, one that answers with a text, one that answers
    with counts, and an environment. *)
Definition upstream_down (r : string * dict) : outcome pyval :=
  Raise (UpstreamError "connection refused").

Definition upstream_text (r : string * dict) : outcome pyval := Ok (PStr "maintenance").

Definition upstream_counts (r : string * dict) : outcome pyval :=
  Ok (PDict [("SongCount", PInt 1234); ("AlbumCount", PNone)]).

Definition upstream_song (r : string * dict) : outcome pyval := Ok sample_song.

(** An upstream that sends an explicit null as its count of records. *)
Definition upstream_null_total (r : string * dict) : outcome pyval :=
  Ok (PDict [("TotalRecordCount", PNone); ("Items", PList [])]).

Definition sample_env : environ :=
  fun k =>
    if (k =? "JELLYFIN_URL")%string then Some "http://jellyfin.local:8096//"
    else if (k =? "JELLYFIN_API_KEY")%string then Some "test-api-key"
    else if (k =? "JELLYFIN_USER_ID")%string then Some "test-user-id"
    else None.

Definition sample_env_bare : environ :=
  fun k =>
    if (k =? "JELLYFIN_URL")%string then Some "http://jellyfin.local:8096"
    else if (k =? "JELLYFIN_API_KEY")%string then Some "test-api-key"
    else if (k =? "JELLYFIN_USER_ID")%string then Some "test-user-id"
    else None.

(** * Properties *)

(** ** Dictionaries and tables *)

Lemma dict_get_set_same (d : dict) (k : string) (v : pyval) :
  dict_get (dict_set d k v) k = Some v.
Proof.
  induction d as [|[k' v'] d IH]; simpl.
  - now rewrite String.eqb_refl.
  - destruct (k' =? k)%string eqn:E; simpl.
    + now rewrite String.eqb_refl.
    + now rewrite E.
Qed.

Lemma dict_get_set_other (d : dict) (k k' : string) (v : pyval) :
  k <> k' -> dict_get (dict_set d k v) k' = dict_get d k'.
Proof.
  intros Hne. induction d as [|[k0 v0] d IH]; simpl.
  - apply String.eqb_neq in Hne. now rewrite Hne.
  - destruct (k0 =? k)%string eqn:E; simpl.
    + apply String.eqb_eq in E. subst k0.
      apply String.eqb_neq in Hne. now rewrite Hne.
    + destruct (k0 =? k')%string; [reflexivity | exact IH].
Qed.

Lemma mem_In (k : string) (l : list string) : mem k l = true <-> In k l.
Proof.
  unfold mem. rewrite existsb_exists. split.
  - intros [x [Hin Heq]]. apply String.eqb_eq in Heq. now subst.
  - intros Hin. exists k. split; [exact Hin | apply String.eqb_refl].
Qed.

Lemma table_get_mem {V : Type} (t : list (string * V)) (k : string) :
  mem k (map fst t) = match table_get t k with Some _ => true | None => false end.
Proof.
  induction t as [|[k' v] t IH]; simpl; [reflexivity|].
  destruct (k' =? k)%string; simpl; [reflexivity | exact IH].
Qed.

(** Keys after an assignment: a key already there stays where it is. *)
Lemma dict_set_keys (d : dict) (k : string) (v : pyval) :
  map fst (dict_set d k v)
  = if mem k (map fst d) then map fst d else (map fst d ++ [k])%list.
Proof.
  induction d as [|[k' v'] d IH]; simpl; [reflexivity|].
  destruct (k' =? k)%string eqn:E; simpl.
  - apply String.eqb_eq in E. now subst.
  - rewrite IH. unfold mem. now destruct (existsb _ (map fst d)).
Qed.

Lemma vocabulary_extractors : map fst extractors = vocabulary.
Proof. reflexivity. Qed.

Lemma in_vocabulary (f : string) :
  mem f vocabulary = match table_get extractors f with Some _ => true | None => false end.
Proof. rewrite <- vocabulary_extractors. apply table_get_mem. Qed.

(** ** Durations *)

Lemma format_0d_two_digits (n : Z) :
  0 <= n < 100 -> format_0d 2 n = two_digits n.
Proof.
  intros Hn.
  assert (Hnat : exists k : nat, n = Z.of_nat k /\ (k < 100)%nat).
  { exists (Z.to_nat n). split; lia. }
  destruct Hnat as [k [-> Hk]]. clear Hn.
  do 100 (destruct k as [|k]; [vm_compute; reflexivity|]).
  lia.
Qed.

Lemma format_duration_falsy (v : pyval) :
  truthy v = false -> _format_duration v = Ok PNone.
Proof. intros H. unfold _format_duration. now rewrite H. Qed.

Lemma format_duration_int (ticks : Z) :
  ticks <> 0 ->
  _format_duration (PInt ticks)
  = Ok (PStr (str_int (ticks / 10000000 / 60) ++ ":"
              ++ two_digits ((ticks / 10000000) mod 60))).
Proof.
  intros Hnz. unfold _format_duration. simpl truthy.
  apply Z.eqb_neq in Hnz. rewrite Hnz. simpl negb. cbv iota. simpl as_int. cbv iota zeta.
  rewrite format_0d_two_digits; [reflexivity|].
  pose proof (Z.mod_pos_bound (ticks / 10000000) 60). lia.
Qed.

(** C2.  [_format_duration] gives [None] for [None], for zero and for every
    other falsy value; for every other integer number of ticks it gives the
    minutes, a colon and the seconds, where the seconds are those of
    [floor(ticks / 10_000_000)] modulo 60 written with exactly two digits and
    the minutes are the whole quotient by 60, never reduced to hours: a whole
    number [m] of minutes is rendered as [m] followed by [":00"].
    3_300_000_000 gives "5:30" and 1_800_000_000 gives "3:00". *)
Theorem format_duration_spec :
  _format_duration PNone = Ok PNone
  /\ _format_duration (PInt 0) = Ok PNone
  /\ (forall v : pyval, truthy v = false -> _format_duration v = Ok PNone)
  /\ (forall ticks : Z,
        ticks <> 0 ->
        let total_seconds := ticks / 10000000 in
        let minutes := total_seconds / 60 in
        let seconds := total_seconds mod 60 in
        _format_duration (PInt ticks)
        = Ok (PStr (str_int minutes ++ ":" ++ two_digits seconds))
        /\ 0 <= seconds < 60
        /\ String.length (two_digits seconds) = 2%nat)
  /\ (forall m : Z,
        m <> 0 ->
        _format_duration (PInt (m * 600000000)) = Ok (PStr (str_int m ++ ":00")))
  /\ _format_duration (PInt 3300000000) = Ok (PStr "5:30")
  /\ _format_duration (PInt 1800000000) = Ok (PStr "3:00").
Proof.
  split; [reflexivity|].
  split; [reflexivity|].
  split; [exact format_duration_falsy|].
  split.
  { intros ticks Hnz total_seconds minutes seconds.
    split; [exact (format_duration_int ticks Hnz)|].
    split; [apply Z.mod_pos_bound; lia | reflexivity]. }
  split.
  { intros m Hm. rewrite format_duration_int by lia.
    replace (m * 600000000) with (m * 60 * 10000000) by lia.
    rewrite Z.div_mul by lia.
    rewrite Z.div_mul by lia.
    rewrite Z.mod_mul by lia.
    reflexivity. }
  split; vm_compute; reflexivity.
Qed.

(** ** Configuration check *)

Lemma truthy_str (s : string) : truthy (PStr s) = false <-> s = "".
Proof.
  simpl. destruct (s =? "")%string eqn:E; simpl.
  - apply String.eqb_eq in E. now split.
  - apply String.eqb_neq in E. split; [discriminate | contradiction].
Qed.

Lemma truthy_str_true (s : string) : truthy (PStr s) = true <-> s <> "".
Proof.
  pose proof (truthy_str s) as H.
  destruct (truthy (PStr s)); split; intros; try discriminate; try reflexivity.
  - intros E. now apply H in E.
  - exfalso. apply H0. now apply H.
Qed.

Lemma check_config_none :
  _check_config = None
  <-> JELLYFIN_URL <> "" /\ JELLYFIN_API_KEY <> "" /\ JELLYFIN_USER_ID <> "".
Proof.
  unfold _check_config. rewrite <- !truthy_str_true.
  destruct (truthy (PStr JELLYFIN_URL)), (truthy (PStr JELLYFIN_API_KEY)),
    (truthy (PStr JELLYFIN_USER_ID)); simpl; split;
    try discriminate; try (intros [? [? ?]]; discriminate); auto.
Qed.

(** A tool whose configuration check fails returns the error of the check and
    leaves the log of requests as it is. *)
Lemma gate_closed (c : tool_call) (err : pyval) (log : list request) :
  _check_config = Some err -> call_tool c log = (Ok err, log).
Proof.
  intros H.
  destruct c; simpl;
    unfold search_media, list_albums, list_artists, get_album_tracks,
      get_artist_albums, list_genres, get_recent, get_favorites, get_playlists,
      list_movies, list_series, get_stream_url, library_stats;
    rewrite H; reflexivity.
Qed.

(** C3.  Whenever the base URL, the API key or the user id is empty, every
    tool returns [{"error": "<NAME> not configured"}] for the first empty one
    in the order URL, API key, user id, and the log of requests is unchanged:
    no HTTP call is made.  [_check_config] passes exactly when the three are
    non-empty. *)
Theorem config_gate (c : tool_call) (log : list request) :
  (JELLYFIN_URL = "" ->
   call_tool c log
   = (Ok (PDict [("error", PStr "JELLYFIN_URL not configured")]), log))
  /\ (JELLYFIN_URL <> "" -> JELLYFIN_API_KEY = "" ->
      call_tool c log
      = (Ok (PDict [("error", PStr "JELLYFIN_API_KEY not configured")]), log))
  /\ (JELLYFIN_URL <> "" -> JELLYFIN_API_KEY <> "" -> JELLYFIN_USER_ID = "" ->
      call_tool c log
      = (Ok (PDict [("error", PStr "JELLYFIN_USER_ID not configured")]), log))
  /\ (_check_config = None
      <-> JELLYFIN_URL <> "" /\ JELLYFIN_API_KEY <> "" /\ JELLYFIN_USER_ID <> "").
Proof.
  split; [|split; [|split]].
  - intros Hu. apply gate_closed. unfold _check_config.
    apply truthy_str in Hu. now rewrite Hu.
  - intros Hu Hk. apply gate_closed. unfold _check_config.
    apply truthy_str_true in Hu. apply truthy_str in Hk. now rewrite Hu, Hk.
  - intros Hu Hk Hi. apply gate_closed. unfold _check_config.
    apply truthy_str_true in Hu. apply truthy_str_true in Hk. apply truthy_str in Hi.
    now rewrite Hu, Hk, Hi.
  - apply check_config_none.
Qed.

(** ** One GET per call *)

(** A GET followed by a computation without effects: the request is logged,
    and the computation runs on the answer when there is one. *)
Lemma run_get {A : Type} (path : string) (params : dict)
      (F : pyval -> outcome A) (log : list request) :
  (data <~ _jellyfin_get path params ;; io_lift (F data)) log
  = (data <- upstream (JELLYFIN_URL ++ path,
                       dict_set params "api_key" (PStr JELLYFIN_API_KEY)) ;;
     F data,
     List.app log [(JELLYFIN_URL ++ path,
                    dict_set params "api_key" (PStr JELLYFIN_API_KEY))]).
Proof.
  unfold io_bind, _jellyfin_get, io_lift.
  destruct (upstream _); reflexivity.
Qed.

Ltac open_tool Hcfg :=
  unfold call_tool, search_media, list_albums, list_artists, get_album_tracks,
    get_artist_albums, list_genres, get_recent, get_favorites, get_playlists,
    list_movies, list_series, get_stream_url, library_stats;
  rewrite Hcfg; cbv zeta; rewrite run_get.

(** ** Limits *)

Lemma clamp_range (limit cap : Z) :
  1 <= cap ->
  let n := Z.max 1 (Z.min limit cap) in
  1 <= n <= cap
  /\ (1 <= limit <= cap -> n = limit)
  /\ (limit < 1 -> n = 1)
  /\ (cap < limit -> n = cap).
Proof. intros Hcap n. subst n. lia. Qed.

(** C4.  When the configuration is complete, a tool that takes a limit issues its
    request for every integer [limit], with the parameter [Limit] brought into
    the range of the tool (1 to 50 for [search_media] and [get_recent], 1 to
    200 for [list_artists], 1 to 100 for the others): a value inside the range
    is kept, a smaller one becomes 1, a larger one the upper end.  No limit
    makes the tool fail: against an upstream that answers with an empty
    object the result is [{"total": 0, "items": []}].  [search_media] with
    limit 200 asks for 50 and [list_artists] with limit 500 asks for 200. *)
Theorem limit_clamped (log : list request) :
  _check_config = None ->
  (forall (c : tool_call) (limit cap : Z),
      limit_of c = Some limit ->
      limit_cap c = Some cap ->
      (exists (url : string) (params : dict) (n : Z),
          snd (call_tool c log) = (log ++ [(url, params)])%list
          /\ dict_get params "Limit" = Some (PInt n)
          /\ 1 <= n <= cap
          /\ (1 <= limit <= cap -> n = limit)
          /\ (limit < 1 -> n = 1)
          /\ (cap < limit -> n = cap))
      /\ ((forall r, upstream r = Ok (PDict [])) ->
          fst (call_tool c log) = Ok (PDict [("total", PInt 0); ("items", PList [])])))
  /\ (forall query type : string,
         exists (url : string) (params : dict),
           snd (search_media query type 200 log) = (log ++ [(url, params)])%list
           /\ dict_get params "Limit" = Some (PInt 50))
  /\ (exists (url : string) (params : dict),
         snd (list_artists 500 log) = (log ++ [(url, params)])%list
         /\ dict_get params "Limit" = Some (PInt 200)).
Proof.
  intros Hcfg. split; [|split].
  - intros c limit cap Hl Hc.
    destruct c; simpl in Hl, Hc; try discriminate;
      injection Hl as <-; injection Hc as <-; open_tool Hcfg;
      match goal with
      | |- context [Z.max 1 (Z.min ?l ?k)] =>
          pose proof (clamp_range l k ltac:(lia)) as Hn;
          cbv zeta in Hn;
          remember (Z.max 1 (Z.min l k)) as n eqn:En; clear En
      end;
      (split;
       [ eexists _, _, n; split; [reflexivity|]; split;
         [ repeat match goal with
             | |- context [if truthy ?v then _ else _] => destruct (truthy v)
             end; reflexivity
         | exact Hn ]
       | intros Hup; rewrite Hup; reflexivity ]).
  - intros query type. open_tool Hcfg. eexists _, _. split; reflexivity.
  - open_tool Hcfg. eexists _, _. split; reflexivity.
Qed.

(** ** Sorting *)

Lemma sort_map_unknown (sort default : string) :
  ~ In sort ["name"; "added"; "year"; "rating"; "random"] ->
  table_get_default SORT_MAP sort default = default.
Proof.
  intros Hnot. unfold table_get_default, SORT_MAP. cbn [table_get].
  repeat match goal with
    | |- context [(?k =? sort)%string] =>
        destruct (String.eqb_spec k sort) as [E|_];
        [exfalso; apply Hnot; rewrite <- E; simpl; tauto|]
    end.
  reflexivity.
Qed.

Lemma sort_order_descending (sort : string) (names : list string) :
  (if mem sort names then "Descending" else "Ascending") = "Descending"
  <-> In sort names.
Proof.
  rewrite <- mem_In. destruct (mem sort names); split; intros; try reflexivity; discriminate.
Qed.

(** C6.  When the configuration is complete, [list_albums] asks for the sort field that
    the shared table gives for its [sort] argument (name: SortName, added:
    DateCreated, year: PremiereDate, rating: CommunityRating, random: Random)
    and for SortName when the argument is none of these names; the order is
    Descending exactly when the argument is "added" or "year", and Ascending
    otherwise.  So "year" gives PremiereDate, Descending and "name" gives
    SortName, Ascending. *)
Theorem list_albums_sort (artist genre sort : string) (limit : Z) (log : list request) :
  _check_config = None ->
  exists (url : string) (params : dict) (sort_by sort_order : string),
    snd (list_albums artist genre sort limit log) = (log ++ [(url, params)])%list
    /\ dict_get params "SortBy" = Some (PStr sort_by)
    /\ dict_get params "SortOrder" = Some (PStr sort_order)
    /\ (sort = "name" -> sort_by = "SortName")
    /\ (sort = "added" -> sort_by = "DateCreated")
    /\ (sort = "year" -> sort_by = "PremiereDate")
    /\ (sort = "rating" -> sort_by = "CommunityRating")
    /\ (sort = "random" -> sort_by = "Random")
    /\ (~ In sort ["name"; "added"; "year"; "rating"; "random"] -> sort_by = "SortName")
    /\ (sort_order = "Descending" <-> sort = "added" \/ sort = "year")
    /\ (sort_order = "Ascending" <-> ~ (sort = "added" \/ sort = "year"))
    /\ (sort = "year" -> sort_by = "PremiereDate" /\ sort_order = "Descending")
    /\ (sort = "name" -> sort_by = "SortName" /\ sort_order = "Ascending").
Proof.
  intros Hcfg. open_tool Hcfg.
  exists (JELLYFIN_URL ++ "/Users/" ++ JELLYFIN_USER_ID ++ "/Items").
  eexists.
  exists (table_get_default SORT_MAP sort "SortName").
  exists (if mem sort ["added"; "year"] then "Descending" else "Ascending").
  split; [reflexivity|].
  split; [destruct (truthy (PStr artist)), (truthy (PStr genre)); reflexivity|].
  split; [destruct (truthy (PStr artist)), (truthy (PStr genre)); reflexivity|].
  assert (Hdesc : (if mem sort ["added"; "year"] then "Descending" else "Ascending")
                  = "Descending" <-> sort = "added" \/ sort = "year").
  { rewrite sort_order_descending. simpl. intuition congruence. }
  repeat match goal with |- _ /\ _ => split end;
    try (intros ->; split; reflexivity); try (intros ->; reflexivity).
  - apply sort_map_unknown.
  - exact Hdesc.
  - split.
    + intros Hasc Hd. apply Hdesc in Hd. rewrite Hd in Hasc. discriminate.
    + intros Hn. destruct (mem sort ["added"; "year"]) eqn:E; [|reflexivity].
      exfalso. apply Hn. apply Hdesc. reflexivity.
Qed.

(** ** The loop of [_format_item] *)

Lemma format_loop_ok (raw : pyval) (fields : list string) (acc m : dict) :
  format_loop raw fields acc = Ok m -> m = project raw fields acc.
Proof.
  revert acc. induction fields as [|f rest IH]; intros acc H; cbn [format_loop] in H.
  - now injection H as <-.
  - unfold project. cbn [fold_left]. fold (project raw rest (project_step raw acc f)).
    unfold project_step, extract.
    destruct (table_get extractors f) as [e|]; [|now apply IH].
    destruct (e raw) as [v|x]; cbn [bind] in H; [|discriminate].
    destruct (is_none v); cbn [negb] in H; now apply IH.
Qed.

Lemma format_loop_total (raw : pyval) (fields : list string) (acc : dict) :
  (forall f, In f fields -> mem f vocabulary = true -> exists v, extract f raw = Ok v) ->
  format_loop raw fields acc = Ok (project raw fields acc).
Proof.
  revert acc. induction fields as [|f rest IH]; intros acc H; cbn [format_loop];
    [reflexivity|].
  unfold project. cbn [fold_left]. fold (project raw rest (project_step raw acc f)).
  assert (Hrest : forall g, In g rest -> mem g vocabulary = true ->
                            exists v, extract g raw = Ok v).
  { intros g Hg. apply H. now right. }
  specialize (H f (or_introl eq_refl)). rewrite in_vocabulary in H.
  unfold project_step, extract in *.
  destruct (table_get extractors f) as [e|]; [|now apply IH].
  destruct (H eq_refl) as [v Hv]. rewrite Hv. cbn [bind].
  destruct (is_none v); cbn [negb]; now apply IH.
Qed.

(** An exception of [_format_item] is the exception of the extractor of a
    requested name of the vocabulary. *)
Lemma format_loop_raise (raw : pyval) (fields : list string) (acc : dict) (x : pyexc) :
  format_loop raw fields acc = Raise x ->
  exists f, In f fields /\ mem f vocabulary = true /\ extract f raw = Raise x.
Proof.
  revert acc. induction fields as [|f rest IH]; intros acc H; cbn [format_loop] in H;
    [discriminate|].
  assert (Hrest : forall acc', format_loop raw rest acc' = Raise x ->
            exists g, In g (f :: rest) /\ mem g vocabulary = true /\ extract g raw = Raise x).
  { intros acc' H'. destruct (IH _ H') as [g [Hg Hx]]. exists g. split; [now right | exact Hx]. }
  destruct (table_get extractors f) as [e|] eqn:Et; [|now apply Hrest in H].
  destruct (e raw) as [v|y] eqn:Ee; cbn [bind] in H.
  - destruct (is_none v); cbn [negb] in H; now apply Hrest in H.
  - injection H as ->. exists f. split; [now left|].
    rewrite in_vocabulary. unfold extract. rewrite Et. now split.
Qed.

(** Names outside the vocabulary change nothing, exceptions included. *)
Lemma format_loop_known (raw : pyval) (fields : list string) (acc : dict) :
  format_loop raw fields acc
  = format_loop raw (filter (fun f => mem f vocabulary) fields) acc.
Proof.
  revert acc. induction fields as [|f rest IH]; intros acc; cbn [format_loop filter];
    [reflexivity|].
  rewrite in_vocabulary.
  destruct (table_get extractors f) as [e|] eqn:Et; [|apply IH].
  cbn [format_loop]. rewrite Et.
  destruct (e raw) as [v|y]; cbn [bind]; [|reflexivity].
  destruct (is_none v); cbn [negb]; apply IH.
Qed.

Lemma project_step_present (raw : pyval) (acc : dict) (f : string) :
  present raw f = true ->
  exists v, extract f raw = Ok v /\ is_none v = false
            /\ project_step raw acc f = dict_set acc f v.
Proof.
  unfold present, project_step. destruct (extract f raw) as [v|x]; [|discriminate].
  intros H. exists v. destruct (is_none v); [discriminate|]. repeat split.
Qed.

Lemma project_step_absent (raw : pyval) (acc : dict) (f : string) :
  present raw f = false -> project_step raw acc f = acc.
Proof.
  unfold present, project_step. destruct (extract f raw) as [v|x]; [|reflexivity].
  destruct (is_none v); [reflexivity | discriminate].
Qed.

(** ** Keys and values of the projection *)

Lemma filter_filter_and {A : Type} (p q : A -> bool) (l : list A) :
  filter p (filter q l) = filter (fun x => q x && p x) l.
Proof.
  induction l as [|a l IH]; simpl; [reflexivity|].
  destruct (q a); simpl; [destruct (p a)|]; now rewrite IH.
Qed.

Lemma filter_id {A : Type} (p : A -> bool) (l : list A) :
  (forall x, In x l -> p x = true) -> filter p l = l.
Proof.
  induction l as [|a l IH]; intros H; simpl; [reflexivity|].
  rewrite (H a (or_introl eq_refl)). f_equal. apply IH. intros x Hx. apply H. now right.
Qed.

Lemma keep_first_NoDup (l : list string) : NoDup (keep_first l).
Proof.
  induction l as [|a l IH]; simpl; constructor.
  - rewrite filter_In. intros [_ H]. now rewrite String.eqb_refl in H.
  - now apply NoDup_filter.
Qed.

Lemma keep_first_id (l : list string) : NoDup l -> keep_first l = l.
Proof.
  induction 1 as [|a l Hnot Hnd IH]; simpl; [reflexivity|].
  rewrite IH. f_equal. apply filter_id. intros x Hx.
  destruct (String.eqb_spec x a) as [->|_]; [contradiction | reflexivity].
Qed.

Lemma mem_app (k : string) (l1 l2 : list string) :
  mem k (l1 ++ l2)%list = mem k l1 || mem k l2.
Proof. unfold mem. apply existsb_app. Qed.

Lemma project_cons (raw : pyval) (f : string) (rest : list string) (acc : dict) :
  project raw (f :: rest) acc = project raw rest (project_step raw acc f).
Proof. reflexivity. Qed.

(** The keys of the projection, in order: those of the start, then the
    requested names with a value, each at its first occurrence. *)
Lemma project_keys (raw : pyval) (fields : list string) (acc : dict) :
  map fst (project raw fields acc)
  = (map fst acc
     ++ filter (fun y => negb (mem y (map fst acc)))
               (keep_first (filter (present raw) fields)))%list.
Proof.
  revert acc. induction fields as [|f rest IH]; intros acc.
  - simpl. now rewrite app_nil_r.
  - rewrite project_cons, IH. cbn [filter].
    destruct (present raw f) eqn:Ep.
    + destruct (project_step_present raw acc f Ep) as [v [_ [_ ->]]].
      rewrite dict_set_keys. cbn [keep_first filter].
      destruct (mem f (map fst acc)) eqn:Em; cbn [negb].
      * f_equal. rewrite filter_filter_and. apply filter_ext. intros x.
        destruct (String.eqb_spec x f) as [->|_]; cbn [negb andb]; [now rewrite Em | reflexivity].
      * rewrite <- app_assoc. cbn [app]. do 2 f_equal.
        rewrite filter_filter_and. apply filter_ext. intros x.
        rewrite mem_app. unfold mem at 2. cbn [existsb]. rewrite orb_false_r.
        rewrite (String.eqb_sym f x).
        destruct (x =? f)%string; cbn [negb andb]; [now rewrite orb_true_r|].
        now rewrite orb_false_r.
    + now rewrite (project_step_absent raw acc f Ep).
Qed.

Lemma extract_present (raw : pyval) (k : string) (v : pyval) :
  extract k raw = Ok v -> is_none v = false -> present raw k = true.
Proof. intros He Hn. unfold present. now rewrite He, Hn. Qed.

(** A binding of the projection was there at the start, or is the value
    extracted for a requested name, and that value is not [None]. *)
Lemma project_get (raw : pyval) (fields : list string) (acc : dict) (k : string) (v : pyval) :
  dict_get (project raw fields acc) k = Some v ->
  dict_get acc k = Some v
  \/ (In k fields /\ extract k raw = Ok v /\ is_none v = false).
Proof.
  revert acc. induction fields as [|f rest IH]; intros acc H; [now left|].
  rewrite project_cons in H. destruct (IH _ H) as [Hacc|[Hin Hv]].
  - destruct (present raw f) eqn:Ep.
    + destruct (project_step_present raw acc f Ep) as [w [Hw [Hn Hs]]].
      rewrite Hs in Hacc.
      destruct (String.eqb_spec f k) as [->|Hne].
      * rewrite dict_get_set_same in Hacc. injection Hacc as <-.
        right. repeat split; [now left | exact Hw | exact Hn].
      * rewrite dict_get_set_other in Hacc by exact Hne. now left.
    + rewrite (project_step_absent raw acc f Ep) in Hacc. now left.
  - right. split; [now right | exact Hv].
Qed.

(** A requested name whose extracted value is not [None] is bound to it. *)
Lemma project_get_present (raw : pyval) (fields : list string) (acc : dict)
      (k : string) (v : pyval) :
  extract k raw = Ok v -> is_none v = false ->
  In k fields \/ dict_get acc k = Some v ->
  dict_get (project raw fields acc) k = Some v.
Proof.
  intros He Hn. revert acc. induction fields as [|f rest IH]; intros acc H.
  - destruct H as [[]|H]. exact H.
  - rewrite project_cons. apply IH.
    destruct (String.eqb_spec f k) as [->|Hne].
    + right. destruct (project_step_present raw acc k (extract_present _ _ _ He Hn))
        as [w [Hw [_ ->]]].
      rewrite He in Hw. injection Hw as <-. apply dict_get_set_same.
    + destruct H as [[E|Hin]|Hacc]; [contradiction | now left | right].
      destruct (present raw f) eqn:Ep.
      * destruct (project_step_present raw acc f Ep) as [w [_ [_ ->]]].
        now rewrite dict_get_set_other.
      * now rewrite (project_step_absent raw acc f Ep).
Qed.

(** ** Items of the shape Jellyfin sends *)

Lemma format_duration_shaped (o : option pyval) :
  int_or_absent o = true ->
  exists v, _format_duration (match o with Some t => t | None => PNone end) = Ok v.
Proof.
  destruct o as [[]|]; try discriminate; intros _; try (now eexists).
  unfold _format_duration. simpl truthy. destruct (negb (negb (z =? 0))); now eexists.
Qed.

Lemma first_or_none_shaped (o : option pyval) :
  list_or_absent o = true ->
  exists v, first_or_none (match o with Some x => x | None => PNone end) = Ok v.
Proof.
  destruct o as [[| | | | |[|a l]|]|]; try discriminate; intros _; now eexists.
Qed.

Lemma first_source_get_shaped (o : option pyval) (k : string) :
  sources_or_absent o = true ->
  exists v, first_source_get (match o with Some x => x | None => PNone end) k = Ok v.
Proof.
  destruct o as [[| | | | |[|[] l]|]|]; try discriminate; intros _;
    unfold first_source_get, py_or, py_get, py_get_default; cbn [truthy List.length Nat.eqb negb py_first bind];
    try (now eexists).
  destruct (dict_get d k); now eexists.
Qed.

Lemma py_get_dict (d : dict) (k : string) :
  py_get (PDict d) k = Ok (field_of d k).
Proof. unfold py_get, py_get_default, field_of. now destruct (dict_get d k). Qed.

(** The extractor of [api_stream] on an object. *)
Lemma extract_api_stream (d : dict) :
  extract "api_stream" (PDict d)
  = match dict_get d "Id" with
    | Some i =>
        if truthy i
        then Ok (PStr (JELLYFIN_URL ++ "/Audio/" ++ py_str i
                         ++ "/universal?api_key=" ++ JELLYFIN_API_KEY))
        else Ok PNone
    | None => Ok PNone
    end.
Proof.
  unfold extract. cbn [table_get extractors String.eqb Ascii.eqb Bool.eqb].
  rewrite py_get_dict. unfold field_of, py_item. cbn [bind].
  destruct (dict_get d "Id") as [i|]; [|reflexivity].
  destruct (truthy i); reflexivity.
Qed.

(** On an item of that shape no extractor raises. *)
Lemma extract_shaped (raw : pyval) (f : string) :
  item_shaped raw = true -> mem f vocabulary = true -> exists v, extract f raw = Ok v.
Proof.
  intros Hs Hf. destruct raw as [| | | | | |d]; try discriminate.
  unfold item_shaped in Hs.
  apply andb_prop in Hs. destruct Hs as [Hs Hticks].
  apply andb_prop in Hs. destruct Hs as [Hs Hsources].
  apply andb_prop in Hs. destruct Hs as [Hartists Hgenres].
  apply mem_In in Hf. unfold vocabulary in Hf. cbn [In] in Hf.
  repeat (destruct Hf as [<-|Hf]); try contradiction;
    try (rewrite extract_api_stream;
         destruct (dict_get d "Id") as [i|]; [destruct (truthy i)|]; now eexists);
    unfold extract; cbn [table_get extractors String.eqb Ascii.eqb Bool.eqb];
    rewrite py_get_dict; unfold field_of; cbn [bind];
    try (now eexists).
  - now apply first_or_none_shaped.
  - now apply first_or_none_shaped.
  - now apply format_duration_shaped.
  - now apply first_source_get_shaped.
  - now apply first_source_get_shaped.
Qed.

Lemma format_item_shaped (raw : pyval) (fields : list string) :
  item_shaped raw = true -> _format_item raw fields = Ok (project raw fields []).
Proof.
  intros Hs. apply format_loop_total. intros f _ Hf. now apply extract_shaped.
Qed.

(** ** What [_format_item] returns *)

Lemma is_none_false (v : pyval) : is_none v = false <-> v <> PNone.
Proof. destruct v; simpl; split; intros; try discriminate; try reflexivity; try congruence. Qed.

Lemma present_vocabulary (raw : pyval) (k : string) :
  present raw k = true -> In k vocabulary.
Proof.
  intros H. apply mem_In. rewrite in_vocabulary.
  unfold present, extract in H. destruct (table_get extractors k); [reflexivity | discriminate].
Qed.

Lemma extract_artist_absent (d : dict) :
  dict_get d "Artists" = None
  \/ dict_get d "Artists" = Some PNone
  \/ dict_get d "Artists" = Some (PList []) ->
  extract "artist" (PDict d) = Ok PNone.
Proof.
  intros H. unfold extract. cbn [table_get extractors String.eqb Ascii.eqb Bool.eqb].
  rewrite py_get_dict. unfold field_of.
  destruct H as [->|[->| ->]]; reflexivity.
Qed.

Lemma format_item_sound (raw : pyval) (fields : list string) (m : dict) :
  _format_item raw fields = Ok m ->
  forall k v, dict_get m k = Some v ->
              In k fields /\ In k vocabulary /\ extract k raw = Ok v /\ v <> PNone.
Proof.
  intros Hm k v Hk. apply format_loop_ok in Hm. subst m.
  apply project_get in Hk. destruct Hk as [Hk|[Hin [He Hn]]]; [discriminate|].
  repeat split; try assumption.
  - apply (present_vocabulary raw). now apply extract_present with v.
  - now apply is_none_false.
Qed.

Lemma format_item_complete (raw : pyval) (fields : list string) (m : dict) :
  _format_item raw fields = Ok m ->
  forall k v, In k fields -> extract k raw = Ok v -> v <> PNone -> dict_get m k = Some v.
Proof.
  intros Hm k v Hin He Hn. apply format_loop_ok in Hm. subst m.
  apply project_get_present; [exact He | now apply is_none_false | now left].
Qed.

Lemma format_item_omits (raw : pyval) (fields : list string) (m : dict) :
  _format_item raw fields = Ok m ->
  forall k, extract k raw = Ok PNone -> dict_get m k = None.
Proof.
  intros Hm k Hk. destruct (dict_get m k) as [v|] eqn:E; [|reflexivity].
  destruct (format_item_sound raw fields m Hm k v E) as [_ [_ [He Hn]]].
  rewrite Hk in He. injection He as <-. now contradiction Hn.
Qed.

(** C1.  For every raw item and every list of requested names:
    a mapping returned by [_format_item] binds a key only if the key was
    requested, belongs to the vocabulary and its extracted value is not
    [None], in which case it is bound to that value; a requested name with
    such a value is bound; a name whose value is [None] or missing, or which
    is not in the vocabulary, is not a key at all, and no key is bound to
    [None].  Names outside the vocabulary never matter: the outcome is that
    of the call without them, and an exception can only come from the
    extractor of a requested name of the vocabulary.  When [Artists] is
    missing, null or the empty list there is no key [artist].  On an item of
    the shape Jellyfin sends, a mapping is returned. *)
Theorem format_item_spec (raw : pyval) (fields : list string) :
  (forall m : dict,
      _format_item raw fields = Ok m ->
      (forall k v, dict_get m k = Some v ->
                   In k fields /\ In k vocabulary /\ extract k raw = Ok v /\ v <> PNone)
      /\ (forall k v, In k fields -> extract k raw = Ok v -> v <> PNone ->
                      dict_get m k = Some v)
      /\ (forall k, ~ In k vocabulary -> dict_get m k = None)
      /\ (forall k, extract k raw = Ok PNone -> dict_get m k = None)
      /\ (forall k, dict_get m k <> Some PNone))
  /\ _format_item raw fields
     = _format_item raw (filter (fun f => mem f vocabulary) fields)
  /\ (forall x : pyexc,
         _format_item raw fields = Raise x ->
         exists f, In f fields /\ In f vocabulary /\ extract f raw = Raise x)
  /\ (forall (d m : dict),
         raw = PDict d ->
         dict_get d "Artists" = None
         \/ dict_get d "Artists" = Some PNone
         \/ dict_get d "Artists" = Some (PList []) ->
         _format_item raw fields = Ok m ->
         dict_get m "artist" = None)
  /\ (item_shaped raw = true -> exists m : dict, _format_item raw fields = Ok m).
Proof.
  split; [|split; [|split; [|split]]].
  - intros m Hm. split; [now apply format_item_sound|]. split; [|split; [|split]].
    + now apply format_item_complete.
    + intros k Hk. destruct (dict_get m k) as [v|] eqn:E; [|reflexivity].
      exfalso. apply Hk. now apply (format_item_sound raw fields m Hm k v).
    + now apply (format_item_omits raw fields).
    + intros k Hk.
      now destruct (format_item_sound raw fields m Hm k PNone Hk) as [_ [_ [_ Hn]]].
  - apply format_loop_known.
  - intros x Hx. apply format_loop_raise in Hx. destruct Hx as [f [Hin [Hm He]]].
    exists f. repeat split; try assumption. now apply mem_In.
  - intros d m -> Ha Hm.
    apply (format_item_omits (PDict d) fields m Hm).
    now apply extract_artist_absent.
  - intros Hs. eexists. now apply format_item_shaped.
Qed.

Lemma format_item_keys (raw : pyval) (fields : list string) (m : dict) :
  _format_item raw fields = Ok m ->
  map fst m = keep_first (filter (present raw) fields).
Proof.
  intros Hm. apply format_loop_ok in Hm. subst m.
  rewrite project_keys. cbn [map app]. apply filter_id. reflexivity.
Qed.

(** C7, as the code has it.  On every raw item (an object), [api_stream] is
    the string "{JELLYFIN_URL}/Audio/{Id}/universal?api_key={JELLYFIN_API_KEY}"
    whenever [Id] is there and is truthy (for a string: not empty), where
    [{Id}] is the [Id] itself when it is a string; it is absent when [Id] is
    missing or is falsy: null, the empty string, zero, false, an empty list or
    object. *)
Theorem api_stream_spec (d : dict) :
  (forall i : pyval,
      dict_get d "Id" = Some i -> truthy i = true ->
      let url := JELLYFIN_URL ++ "/Audio/" ++ py_str i
                 ++ "/universal?api_key=" ++ JELLYFIN_API_KEY in
      extract "api_stream" (PDict d) = Ok (PStr url)
      /\ forall (fields : list string) (m : dict),
           In "api_stream" fields ->
           _format_item (PDict d) fields = Ok m ->
           dict_get m "api_stream" = Some (PStr url))
  /\ (forall s : string,
         dict_get d "Id" = Some (PStr s) -> s <> "" ->
         extract "api_stream" (PDict d)
         = Ok (PStr (JELLYFIN_URL ++ "/Audio/" ++ s
                       ++ "/universal?api_key=" ++ JELLYFIN_API_KEY)))
  /\ (dict_get d "Id" = None
      \/ (exists i : pyval, dict_get d "Id" = Some i /\ truthy i = false) ->
      extract "api_stream" (PDict d) = Ok PNone
      /\ forall (fields : list string) (m : dict),
           _format_item (PDict d) fields = Ok m ->
           dict_get m "api_stream" = None).
Proof.
  split; [|split].
  - intros i Hi Ht url.
    assert (He : extract "api_stream" (PDict d) = Ok (PStr url)).
    { rewrite extract_api_stream, Hi, Ht. reflexivity. }
    split; [exact He|].
    intros fields m Hin Hm.
    apply (format_item_complete (PDict d) fields m Hm); [exact Hin | exact He | discriminate].
  - intros s Hs Hne. rewrite extract_api_stream, Hs.
    apply truthy_str_true in Hne. now rewrite Hne.
  - intros Hid.
    assert (He : extract "api_stream" (PDict d) = Ok PNone).
    { rewrite extract_api_stream.
      destruct Hid as [->|[i [-> ->]]]; reflexivity. }
    split; [exact He|].
    intros fields m Hm.
    now apply (format_item_omits (PDict d) fields m Hm).
Qed.

(** C8, as the code has it.  The keys of the mapping [_format_item] returns
    come in the order of the requested names that have a value, each name at
    its first occurrence only: a name requested twice is one key.  The order
    is that of the filtered request itself exactly when no name with a value
    is requested twice, in particular when no name is requested twice.  On an
    item of the shape Jellyfin sends, a mapping is returned. *)
Theorem format_item_key_order (raw : pyval) (fields : list string) :
  (forall m : dict,
      _format_item raw fields = Ok m ->
      map fst m = keep_first (filter (present raw) fields)
      /\ dict_keys m = map fst m
      /\ (map fst m = filter (present raw) fields
          <-> NoDup (filter (present raw) fields))
      /\ (NoDup fields -> map fst m = filter (present raw) fields))
  /\ (item_shaped raw = true -> exists m : dict, _format_item raw fields = Ok m).
Proof.
  split.
  - intros m Hm. pose proof (format_item_keys raw fields m Hm) as Hk.
    assert (Hiff : map fst m = filter (present raw) fields
                   <-> NoDup (filter (present raw) fields)).
    { rewrite Hk. split.
      - intros E. rewrite <- E. apply keep_first_NoDup.
      - apply keep_first_id. }
    repeat split.
    + exact Hk.
    + unfold dict_keys. rewrite Hk. apply keep_first_id, keep_first_NoDup.
    + apply Hiff.
    + apply Hiff.
    + intros Hnd. apply Hiff. now apply NoDup_filter.
  - intros Hs. eexists. now apply format_item_shaped.
Qed.

(** ** Lists of items *)

Lemma mapM_Forall2 {A B : Type} (f : A -> outcome B) (l : list A) (r : list B) :
  mapM f l = Ok r -> Forall2 (fun a b => f a = Ok b) l r.
Proof.
  revert r. induction l as [|a l IH]; intros r H; cbn [mapM] in H.
  - injection H as <-. constructor.
  - destruct (f a) as [b|x] eqn:Ea; cbn [bind] in H; [|discriminate].
    destruct (mapM f l) as [bs|x]; cbn [bind] in H; [|discriminate].
    injection H as <-. constructor; [exact Ea | now apply IH].
Qed.

Lemma mapM_total {A B : Type} (f : A -> outcome B) (l : list A) :
  (forall a, In a l -> exists b, f a = Ok b) -> exists r, mapM f l = Ok r.
Proof.
  induction l as [|a l IH]; intros H; cbn [mapM]; [now eexists|].
  destruct (H a (or_introl eq_refl)) as [b ->]. cbn [bind].
  destruct IH as [r ->]; [intros x Hx; apply H; now right|].
  cbn [bind]. now eexists.
Qed.

(** The items a tool lists are the projections of the upstream items, one for
    one and in order. *)
Lemma format_list_projects (fields : list string) (l items : list pyval) :
  mapM (fun it => m <- _format_item it fields ;; Ok (PDict m)) l = Ok items ->
  Forall2 (fun it p => exists m, _format_item it fields = Ok m /\ p = PDict m) l items.
Proof.
  intros H. apply mapM_Forall2 in H.
  induction H as [|it p l items Hp _ IH]; constructor; [|exact IH].
  destruct (_format_item it fields) as [m|x]; cbn [bind] in Hp; [|discriminate].
  injection Hp as <-. now exists m.
Qed.

Lemma format_list_shaped (fields : list string) (l : list pyval) :
  forallb item_shaped l = true ->
  exists items, mapM (fun it => m <- _format_item it fields ;; Ok (PDict m)) l = Ok items.
Proof.
  intros H. apply mapM_total. intros it Hit.
  rewrite forallb_forall in H.
  rewrite (format_item_shaped it fields (H it Hit)). cbn [bind]. now eexists.
Qed.

(** ** [get_recent] *)

(** C5.  When the configuration is complete and the upstream answer to the request of
    [get_recent] is a bare array, a result of [get_recent] is the envelope
    [{"total": n, "items": items}] where [items] are the projections of the
    elements of the array, one for one, and [n] is the length of [items];
    nothing else enters [total].  When the elements have the shape Jellyfin
    sends, there is such a result. *)
Theorem get_recent_bare_array (type : string) (limit : Z) (log : list request)
        (req : request) (l : list pyval) :
  _check_config = None ->
  snd (get_recent type limit log) = (log ++ [req])%list ->
  upstream req = Ok (PList l) ->
  (forall result : pyval,
      fst (get_recent type limit log) = Ok result ->
      exists (fields : list string) (items : list pyval),
        result = PDict [ ("total", PInt (Z.of_nat (List.length items)));
                         ("items", PList items) ]
        /\ List.length items = List.length l
        /\ Forall2 (fun it p => exists m, _format_item it fields = Ok m /\ p = PDict m)
                   l items)
  /\ (forallb item_shaped l = true ->
      exists result : pyval, fst (get_recent type limit log) = Ok result).
Proof.
  intros Hcfg Hsnd Hup.
  unfold get_recent in Hsnd |- *. rewrite Hcfg in Hsnd |- *.
  cbv zeta in Hsnd |- *. rewrite run_get in Hsnd |- *.
  cbn [fst snd] in Hsnd |- *.
  apply app_inj_tail in Hsnd. destruct Hsnd as [_ Hreq].
  rewrite Hreq, Hup. cbn [bind py_iter].
  match goal with
  | |- context [mapM (fun it => m <- _format_item it ?fs ;; Ok (PDict m)) l] =>
      set (fields := fs)
  end.
  split.
  - intros result Hres.
    destruct (mapM _ l) as [items|x] eqn:Em; cbn [bind] in Hres; [|discriminate].
    injection Hres as <-. exists fields, items.
    apply format_list_projects in Em.
    split; [reflexivity|]. split; [|exact Em].
    symmetry. now apply Forall2_length in Em.
  - intros Hs. destruct (format_list_shaped fields l Hs) as [items ->].
    cbn [bind]. now eexists.
Qed.

(** C10.  When the configuration is complete and the upstream answer to the request of
    [get_recent] is an object, [get_recent] projects the list under [Items]:
    when [Items] is missing the result is [{"total": 0, "items": []}]; when
    [Items] is a list, a result is the envelope of the projections of its
    elements, one for one, with [total] their number (whatever else the
    object holds), and there is such a result when the elements have the
    shape Jellyfin sends. *)
Theorem get_recent_envelope (type : string) (limit : Z) (log : list request)
        (req : request) (d : dict) :
  _check_config = None ->
  snd (get_recent type limit log) = (log ++ [req])%list ->
  upstream req = Ok (PDict d) ->
  (dict_get d "Items" = None ->
   fst (get_recent type limit log)
   = Ok (PDict [("total", PInt 0); ("items", PList [])]))
  /\ (forall l : list pyval,
         dict_get d "Items" = Some (PList l) ->
         (forall result : pyval,
             fst (get_recent type limit log) = Ok result ->
             exists (fields : list string) (items : list pyval),
               result = PDict [ ("total", PInt (Z.of_nat (List.length items)));
                                ("items", PList items) ]
               /\ List.length items = List.length l
               /\ Forall2 (fun it p => exists m, _format_item it fields = Ok m /\ p = PDict m)
                          l items)
         /\ (forallb item_shaped l = true ->
             exists result : pyval, fst (get_recent type limit log) = Ok result)).
Proof.
  intros Hcfg Hsnd Hup.
  unfold get_recent in Hsnd |- *. rewrite Hcfg in Hsnd |- *.
  cbv zeta in Hsnd |- *. rewrite run_get in Hsnd |- *.
  cbn [fst snd] in Hsnd |- *.
  apply app_inj_tail in Hsnd. destruct Hsnd as [_ Hreq].
  rewrite Hreq, Hup. cbn [bind]. unfold py_get_default.
  split.
  - intros ->. reflexivity.
  - intros l ->. cbn [bind py_iter].
    match goal with
    | |- context [mapM (fun it => m <- _format_item it ?fs ;; Ok (PDict m)) l] =>
        set (fields := fs)
    end.
    split.
    + intros result Hres.
      destruct (mapM _ l) as [items|x] eqn:Em; cbn [bind] in Hres; [|discriminate].
      injection Hres as <-. exists fields, items.
      apply format_list_projects in Em.
      split; [reflexivity|]. split; [|exact Em].
      symmetry. now apply Forall2_length in Em.
    + intros Hs. destruct (format_list_shaped fields l Hs) as [items ->].
      cbn [bind]. now eexists.
Qed.

(** ** [list_genres] and the other listings *)

Lemma format_list_no_null (fields : list string) (l items : list pyval) :
  mapM (fun it => m <- _format_item it fields ;; Ok (PDict m)) l = Ok items ->
  forall p, In p items -> no_null p.
Proof.
  intros H. apply format_list_projects in H.
  induction H as [|it q l items [m [Hm ->]] _ IH]; intros p Hp; [contradiction|].
  destruct Hp as [<-|Hp]; [|now apply IH].
  exists m. split; [reflexivity|].
  intros k Hk. now destruct (format_item_sound it fields m Hm k PNone Hk) as [_ [_ [_ Hn]]].
Qed.

(** What a listing that goes through [_format_item] returns. *)
Lemma listing_result (data : pyval) (fields : list string) (result : pyval) :
  (items <- format_items data fields ;; envelope data items) = Ok result ->
  exists (total : pyval) (items : list pyval),
    result = PDict [("total", total); ("items", PList items)]
    /\ forall p, In p items -> no_null p.
Proof.
  intros H. unfold format_items in H.
  destruct (py_get_default data "Items" (PList [])) as [raw_items|x]; cbn [bind] in H;
    [|discriminate].
  destruct (py_iter raw_items) as [its|x]; cbn [bind] in H; [|discriminate].
  destruct (mapM _ its) as [items|x] eqn:Em; cbn [bind] in H; [|discriminate].
  unfold envelope in H.
  destruct (py_get_default data "TotalRecordCount" (PInt 0)) as [total|x]; cbn [bind] in H;
    [|discriminate].
  injection H as <-. exists total, items. split; [reflexivity|].
  now apply format_list_no_null with fields its.
Qed.

Lemma check_config_error (err : pyval) :
  _check_config = Some err -> exists msg, err = PDict [("error", PStr msg)].
Proof.
  unfold _check_config, error_dict.
  destruct (negb (truthy (PStr JELLYFIN_URL)));
    [|destruct (negb (truthy (PStr JELLYFIN_API_KEY)));
      [|destruct (negb (truthy (PStr JELLYFIN_USER_ID)))]];
    intros H; try discriminate; injection H as <-; now eexists.
Qed.

Lemma genre_entry_dict (it : dict) : genre_entry (PDict it) = Ok (genre_of it).
Proof. unfold genre_entry. now rewrite !py_get_dict. Qed.

(** Only [list_genres] lists items that can hold a null. *)
Lemma listed_items_no_null (c : tool_call) (log : list request) (e : dict)
      (items : list pyval) :
  c <> Call_list_genres ->
  fst (call_tool c log) = Ok (PDict e) ->
  dict_get e "items" = Some (PList items) ->
  forall p, In p items -> no_null p.
Proof.
  intros Hc Hres Hitems.
  destruct _check_config as [err|] eqn:Hcfg.
  { rewrite (gate_closed c err log Hcfg) in Hres. cbn [fst] in Hres.
    destruct (check_config_error err Hcfg) as [msg ->].
    injection Hres as <-. discriminate. }
  destruct c; try contradiction; clear Hc; revert Hres; open_tool Hcfg; cbn [fst];
    match goal with |- context [upstream ?r] => destruct (upstream r) as [data|x] end;
    cbn [bind]; intros Hres; try discriminate.
  all: try (apply listing_result in Hres; destruct Hres as [total [items' [E Hnn]]];
            injection E as ->; injection Hitems as <-; exact Hnn).
  - (* get_recent *)
    destruct (match data with PList _ => Ok data | _ => _ end) as [raw_items|x];
      cbn [bind] in Hres; [|discriminate].
    destruct (py_iter raw_items) as [its|x]; cbn [bind] in Hres; [|discriminate].
    match type of Hres with
    | context [mapM ?f its] => destruct (mapM f its) as [items'|x] eqn:Em
    end; cbn [bind] in Hres; [|discriminate].
    injection Hres as <-. injection Hitems as <-.
    eapply format_list_no_null. exact Em.
  - (* get_stream_url *)
    match type of Hres with
    | context [_format_item data ?fs] => destruct (_format_item data fs) as [m|x] eqn:Em
    end; cbn [bind] in Hres; [|discriminate].
    injection Hres as <-.
    destruct (format_item_sound _ _ _ Em "items" _ Hitems) as [_ [Hv _]].
    unfold vocabulary in Hv. cbn [In] in Hv.
    repeat (destruct Hv as [Hv|Hv]; [discriminate|]). contradiction.
  - (* library_stats *)
    repeat match type of Hres with
      | context [py_get_default data ?k ?v] =>
          destruct (py_get_default data k v); cbn [bind] in Hres; [|discriminate]
      end.
    injection Hres as <-. discriminate.
Qed.

Lemma genre_entries (its : list dict) :
  mapM genre_entry (map PDict its) = Ok (map genre_of its).
Proof.
  induction its as [|it its IH]; cbn [map mapM]; [reflexivity|].
  rewrite genre_entry_dict, IH. reflexivity.
Qed.

(** C9, as the code has it.  When the configuration is complete and the
    upstream answer to the request of [list_genres] is an object whose [Items]
    are objects, the result lists for each of them, in order, the mapping with
    exactly the keys [id] and [name] bound to its [Id] and [Name], and to
    [None] when the upstream object has no such key: the key is there all the
    same.  [_format_item] never does that: it binds no key to [None], and
    gives no key [id] for an object without [Id].  Among the items that the
    tools list, only those of [list_genres] can hold a null. *)
Theorem list_genres_entries (log : list request) (req : request) (d : dict)
        (its : list dict) :
  _check_config = None ->
  snd (list_genres log) = (log ++ [req])%list ->
  upstream req = Ok (PDict d) ->
  dict_get d "Items" = Some (PList (map PDict its)) ->
  fst (list_genres log)
  = Ok (PDict [ ("total", match dict_get d "TotalRecordCount" with
                          | Some t => t
                          | None => PInt 0
                          end);
                ("items",
                 PList (map (fun it => PDict [ ("id", field_of it "Id");
                                               ("name", field_of it "Name") ]) its)) ])
  /\ (forall it : dict,
         (dict_get it "Id" = None -> field_of it "Id" = PNone)
         /\ (dict_get it "Name" = None -> field_of it "Name" = PNone)
         /\ (forall v, dict_get it "Id" = Some v -> field_of it "Id" = v)
         /\ (forall v, dict_get it "Name" = Some v -> field_of it "Name" = v))
  /\ (forall (it : dict) (fields : list string) (m : dict),
         _format_item (PDict it) fields = Ok m ->
         (forall k, dict_get m k <> Some PNone)
         /\ (dict_get it "Id" = None -> dict_get m "id" = None)
         /\ (dict_get it "Name" = None -> dict_get m "name" = None))
  /\ (forall (c : tool_call) (log' : list request) (e : dict) (items : list pyval),
         c <> Call_list_genres ->
         fst (call_tool c log') = Ok (PDict e) ->
         dict_get e "items" = Some (PList items) ->
         forall p, In p items -> no_null p).
Proof.
  intros Hcfg Hsnd Hup Hitems.
  split; [|split; [|split]].
  - unfold list_genres in Hsnd |- *. rewrite Hcfg in Hsnd |- *.
    rewrite run_get in Hsnd |- *. cbn [fst snd] in Hsnd |- *.
    apply app_inj_tail in Hsnd. destruct Hsnd as [_ Hreq].
    rewrite Hreq, Hup. cbn [bind]. unfold py_get_default at 1. rewrite Hitems.
    cbn [bind py_iter]. rewrite genre_entries. cbn [bind].
    unfold envelope, py_get_default.
    destruct (dict_get d "TotalRecordCount"); reflexivity.
  - intros it. unfold field_of. repeat split.
    + now intros ->.
    + now intros ->.
    + now intros v ->.
    + now intros v ->.
  - intros it fields m Hm. repeat split.
    + intros k Hk.
      now destruct (format_item_sound _ _ _ Hm k PNone Hk) as [_ [_ [_ Hn]]].
    + intros Hid. apply (format_item_omits _ _ _ Hm).
      unfold extract. cbn [table_get extractors String.eqb Ascii.eqb Bool.eqb].
      rewrite py_get_dict. unfold field_of. now rewrite Hid.
    + intros Hname. apply (format_item_omits _ _ _ Hm).
      unfold extract. cbn [table_get extractors String.eqb Ascii.eqb Bool.eqb].
      rewrite py_get_dict. unfold field_of. now rewrite Hname.
  - intros c log' e items. apply listed_items_no_null.
Qed.


(** * Further properties of the tools *)

Ltac run_tool Hcfg Hsnd :=
  unfold call_tool, search_media, list_albums, list_artists, get_album_tracks,
    get_artist_albums, list_genres, get_recent, get_favorites, get_playlists,
    list_movies, list_series, get_stream_url, library_stats in Hsnd |- *;
  rewrite Hcfg in Hsnd |- *; cbv zeta in Hsnd |- *;
  rewrite run_get in Hsnd |- *; cbn [fst snd] in Hsnd |- *;
  apply app_inj_tail in Hsnd; destruct Hsnd as [_ Hsnd]; rewrite Hsnd.

(** ** Errors of the upstream and answers of the wrong kind *)

(** X1.  No tool catches the exception of its GET: when the configuration is
    complete and the upstream raises on the request of a call, the call ends
    with that same exception. *)
Theorem upstream_error_propagates (c : tool_call) (log : list request)
        (req : request) (e : pyexc) :
  _check_config = None ->
  snd (call_tool c log) = (log ++ [req])%list ->
  upstream req = Raise e ->
  fst (call_tool c log) = Raise e.
Proof.
  intros Hcfg Hsnd Hup.
  destruct c; run_tool Hcfg Hsnd; rewrite Hup; reflexivity.
Qed.

(** X2.  An upstream answer that is not an object makes every tool raise
    [AttributeError], with one exception: [get_recent] takes a list. *)
Theorem non_object_answer (c : tool_call) (log : list request)
        (req : request) (data : pyval) :
  _check_config = None ->
  snd (call_tool c log) = (log ++ [req])%list ->
  upstream req = Ok data ->
  match data with
  | PDict _ => False
  | PList _ => forall type limit, c <> Call_get_recent type limit
  | _ => True
  end ->
  fst (call_tool c log) = Raise AttributeError.
Proof.
  intros Hcfg Hsnd Hup Hkind.
  destruct c; run_tool Hcfg Hsnd; rewrite Hup; cbn [bind];
    destruct data; try contradiction; try reflexivity.
  exfalso. now apply (Hkind type limit).
Qed.


(** ** Limits again *)

(** X3.  Two limits that the tool brings to the same value give the same
    call, request and result alike: every limit at or above the upper end of
    the range behaves as the upper end, every limit at or below 1 as 1. *)
Theorem same_clamp_same_call (c : tool_call) (cap : Z) (log : list request) :
  limit_cap c = Some cap ->
  (forall l1 l2 : Z,
      Z.max 1 (Z.min l1 cap) = Z.max 1 (Z.min l2 cap) ->
      call_tool (with_limit c l1) log = call_tool (with_limit c l2) log)
  /\ (forall l : Z, cap <= l ->
                    call_tool (with_limit c l) log = call_tool (with_limit c cap) log)
  /\ (forall l : Z, l <= 1 ->
                    call_tool (with_limit c l) log = call_tool (with_limit c 1) log).
Proof.
  intros Hcap.
  assert (Hsame : forall l1 l2 : Z,
             Z.max 1 (Z.min l1 cap) = Z.max 1 (Z.min l2 cap) ->
             call_tool (with_limit c l1) log = call_tool (with_limit c l2) log).
  { intros l1 l2 Heq.
    destruct c; simpl in Hcap; try discriminate; injection Hcap as <-;
      unfold with_limit, call_tool, search_media, list_albums, list_artists,
        get_recent, get_favorites, get_playlists, list_movies, list_series;
      destruct _check_config; try reflexivity; cbv zeta; rewrite Heq; reflexivity. }
  split; [exact Hsame|]. split.
  - intros l Hl. apply Hsame.
    destruct c; simpl in Hcap; try discriminate; injection Hcap as <-; lia.
  - intros l Hl. apply Hsame.
    destruct c; simpl in Hcap; try discriminate; injection Hcap as <-; lia.
Qed.

(** X4.  The tools without a [limit] argument never send a [Limit] of the
    caller: [get_album_tracks], [get_artist_albums], [get_stream_url] and
    [library_stats] send none at all, and [list_genres] always sends 50. *)
Theorem unlimited_tools (c : tool_call) (log : list request) :
  _check_config = None ->
  limit_of c = None ->
  exists (url : string) (params : dict),
    snd (call_tool c log) = (log ++ [(url, params)])%list
    /\ dict_get params "Limit"
       = match c with
         | Call_list_genres => Some (PInt 50)
         | _ => None
         end.
Proof.
  intros Hcfg Hl.
  destruct c; simpl in Hl; try discriminate; open_tool Hcfg;
    eexists _, _; split; reflexivity.
Qed.

(** ** [library_stats] *)

(** X5.  When the configuration is complete and the upstream answers the
    request of [library_stats] with an object, the result has exactly the six
    keys songs, albums, artists, movies, series, episodes, in this order, each
    bound to the upstream count of its kind: 0 when the count is missing, and
    the upstream value as it is otherwise, a null included.  The request is a
    GET of [/Items/Counts] with the key as its only parameter. *)
Theorem library_stats_counts (log : list request) (req : request) (d : dict) :
  _check_config = None ->
  snd (library_stats log) = (log ++ [req])%list ->
  upstream req = Ok (PDict d) ->
  fst (library_stats log)
  = Ok (PDict [ ("songs", count_of d "SongCount");
                ("albums", count_of d "AlbumCount");
                ("artists", count_of d "ArtistCount");
                ("movies", count_of d "MovieCount");
                ("series", count_of d "SeriesCount");
                ("episodes", count_of d "EpisodeCount") ])
  /\ req = (JELLYFIN_URL ++ "/Items/Counts", [("api_key", PStr JELLYFIN_API_KEY)])
  /\ (forall k, dict_get d k = None -> count_of d k = PInt 0)
  /\ (forall k v, dict_get d k = Some v -> count_of d k = v).
Proof.
  intros Hcfg Hsnd Hup.
  unfold library_stats in Hsnd |- *. rewrite Hcfg in Hsnd |- *.
  rewrite run_get in Hsnd |- *. cbn [fst snd] in Hsnd |- *.
  apply app_inj_tail in Hsnd. destruct Hsnd as [_ Hreq].
  rewrite Hreq, Hup. cbn [bind]. unfold py_get_default, count_of.
  split; [|split; [|split]].
  - destruct (dict_get d "SongCount"), (dict_get d "AlbumCount"),
      (dict_get d "ArtistCount"), (dict_get d "MovieCount"),
      (dict_get d "SeriesCount"), (dict_get d "EpisodeCount"); reflexivity.
  - symmetry. exact Hreq.
  - now intros k ->.
  - now intros k v ->.
Qed.


(** ** Listings *)

(** What the pure part of a listing computes from an upstream object. *)
Lemma listing_of_object (d : dict) (fields : list string) :
  (dict_get d "Items" = None ->
   (items <- format_items (PDict d) fields ;; envelope (PDict d) items)
   = Ok (PDict [("total", count_of d "TotalRecordCount"); ("items", PList [])]))
  /\ (dict_get d "Items" = Some PNone ->
      (items <- format_items (PDict d) fields ;; envelope (PDict d) items)
      = Raise TypeError)
  /\ (forall l : list pyval,
         dict_get d "Items" = Some (PList l) ->
         (forall result : pyval,
             (items <- format_items (PDict d) fields ;; envelope (PDict d) items)
             = Ok result ->
             exists items : list pyval,
               result = PDict [ ("total", count_of d "TotalRecordCount");
                                ("items", PList items) ]
               /\ Forall2 (projects fields) l items)
         /\ (forallb item_shaped l = true ->
             exists result : pyval,
               (items <- format_items (PDict d) fields ;; envelope (PDict d) items)
               = Ok result)).
Proof.
  unfold format_items, envelope, py_get_default, count_of.
  split; [|split].
  - intros ->. cbn [bind py_iter mapM].
    destruct (dict_get d "TotalRecordCount"); reflexivity.
  - intros ->. reflexivity.
  - intros l ->. cbn [bind py_iter]. split.
    + intros result Hres.
      destruct (mapM _ l) as [items|x] eqn:Em; cbn [bind] in Hres; [|discriminate].
      exists items. apply format_list_projects in Em. split; [|exact Em].
      destruct (dict_get d "TotalRecordCount"); cbn [bind] in Hres;
        now injection Hres as <-.
    + intros Hs. destruct (format_list_shaped fields l Hs) as [items ->].
      cbn [bind]. destruct (dict_get d "TotalRecordCount"); now eexists.
Qed.

(** X6.  When the configuration is complete and the upstream answers a
    listing tool ([search_media], [list_albums], [list_artists],
    [get_album_tracks], [get_artist_albums], [get_favorites], [get_playlists],
    [list_movies], [list_series]) with an object: the items of the result are
    the projections of the upstream [Items] one for one and in order, and
    [total] is the upstream [TotalRecordCount] as it is, 0 when it is missing;
    it is not the number of items.  A missing [Items] gives no items, a null
    [Items] raises [TypeError]. *)
Theorem listing_envelope (c : tool_call) (log : list request)
        (req : request) (d : dict) :
  _check_config = None ->
  is_listing c = true ->
  snd (call_tool c log) = (log ++ [req])%list ->
  upstream req = Ok (PDict d) ->
  (dict_get d "Items" = None ->
   fst (call_tool c log)
   = Ok (PDict [("total", count_of d "TotalRecordCount"); ("items", PList [])]))
  /\ (dict_get d "Items" = Some PNone -> fst (call_tool c log) = Raise TypeError)
  /\ (forall l : list pyval,
         dict_get d "Items" = Some (PList l) ->
         (forall result : pyval,
             fst (call_tool c log) = Ok result ->
             exists (fields : list string) (items : list pyval),
               result = PDict [ ("total", count_of d "TotalRecordCount");
                                ("items", PList items) ]
               /\ Forall2 (projects fields) l items)
         /\ (forallb item_shaped l = true ->
             exists result : pyval, fst (call_tool c log) = Ok result)).
Proof.
  intros Hcfg Hc Hsnd Hup.
  destruct c; try discriminate Hc; clear Hc; run_tool Hcfg Hsnd; rewrite Hup; cbn [bind];
    match goal with
    | |- context [format_items (PDict d) ?fs] =>
        destruct (listing_of_object d fs) as [Hnone [Hnull Hlist]]
    end;
    (split; [exact Hnone|]; split; [exact Hnull|];
     intros l Hl; destruct (Hlist l Hl) as [Hres Htotal];
     split; [|exact Htotal];
     intros result Hr; destruct (Hres result Hr) as [items Hitems];
     eexists _, items; exact Hitems).
Qed.

(** X7.  The fields of [search_media] and [get_recent] depend on the item
    type.  For a type outside the table of the tool, the items are projected
    onto id, name, type, year: that is every type but Audio, MusicAlbum,
    MusicArtist, Movie, Series for [search_media], and every type but Audio,
    MusicAlbum, Movie, Series for [get_recent], MusicArtist included.  This
    holds for an answer that is an object, with [Items] a list or missing, and
    for the bare array that [get_recent] takes; the result is there as soon
    as the upstream items have the shape Jellyfin sends. *)
Theorem unknown_type_fields (c : tool_call) (type : string) (log : list request)
        (req : request) (data : pyval) (l : list pyval) :
  _check_config = None ->
  (exists query limit,
      c = Call_search_media query type limit
      /\ ~ In type ["Audio"; "MusicAlbum"; "MusicArtist"; "Movie"; "Series"])
  \/ (exists limit,
         c = Call_get_recent type limit
         /\ ~ In type ["Audio"; "MusicAlbum"; "Movie"; "Series"]) ->
  snd (call_tool c log) = (log ++ [req])%list ->
  upstream req = Ok data ->
  (exists d : dict,
      data = PDict d
      /\ (dict_get d "Items" = Some (PList l) \/ (dict_get d "Items" = None /\ l = [])))
  \/ ((exists limit, c = Call_get_recent type limit) /\ data = PList l) ->
  (forall result : pyval,
      fst (call_tool c log) = Ok result ->
      exists (total : pyval) (items : list pyval),
        result = PDict [("total", total); ("items", PList items)]
        /\ Forall2 (projects ["id"; "name"; "type"; "year"]) l items)
  /\ (forallb item_shaped l = true ->
      exists result : pyval, fst (call_tool c log) = Ok result).
Proof.
  intros Hcfg Hc Hsnd Hup Hdata.
  assert (Hfallback : forall (V : Type) (t : list (string * V)) (default : V),
             ~ In type (map fst t) -> table_get_default t type default = default).
  { intros V t default Hnot. unfold table_get_default.
    pose proof (table_get_mem t type) as Hm.
    destruct (table_get t type); [|reflexivity].
    exfalso. apply Hnot. now apply mem_In. }
  set (fields := ["id"; "name"; "type"; "year"]).
  assert (Hlist : forall its : list pyval,
             (forall result,
                 (items <- mapM (fun it => m <- _format_item it fields ;; Ok (PDict m)) its ;;
                  Ok (PDict [ ("total", PInt (Z.of_nat (List.length items)));
                              ("items", PList items) ]))
                 = Ok result ->
                 exists total items,
                   result = PDict [("total", total); ("items", PList items)]
                   /\ Forall2 (projects fields) its items)
             /\ (forallb item_shaped its = true ->
                 exists result,
                   (items <- mapM (fun it => m <- _format_item it fields ;; Ok (PDict m)) its ;;
                    Ok (PDict [ ("total", PInt (Z.of_nat (List.length items)));
                                ("items", PList items) ]))
                   = Ok result)).
  { intros its. split.
    - intros result Hres.
      destruct (mapM _ its) as [items|x] eqn:Em; cbn [bind] in Hres; [|discriminate].
      injection Hres as <-. exists (PInt (Z.of_nat (List.length items))), items.
      split; [reflexivity|]. now apply format_list_projects in Em.
    - intros Hs. destruct (format_list_shaped fields its Hs) as [items ->].
      cbn [bind]. now eexists. }
  destruct Hc as [[query [limit [-> Hnot]]]|[limit [-> Hnot]]];
    run_tool Hcfg Hsnd; rewrite Hup; cbn [bind]; rewrite Hfallback by exact Hnot;
    fold fields.
  - destruct Hdata as [[d [-> Hitems]]|[[limit' Hrecent] _]]; [|discriminate Hrecent].
    destruct (listing_of_object d fields) as [Hnone [_ Hsome]].
    destruct Hitems as [Hitems|[Hitems ->]].
    + destruct (Hsome l Hitems) as [Hres Htotal]. split; [|exact Htotal].
      intros result Hr. destruct (Hres result Hr) as [items [-> Hp]].
      now exists (count_of d "TotalRecordCount"), items.
    + rewrite (Hnone Hitems). split.
      * intros result [= <-]. exists (count_of d "TotalRecordCount"), [].
        split; [reflexivity | constructor].
      * intros _. now eexists.
  - destruct Hdata as [[d [-> Hitems]]|[_ ->]].
    + unfold py_get_default.
      destruct Hitems as [Hitems|[Hitems ->]]; rewrite Hitems; cbn [bind py_iter];
        apply Hlist.
    + cbn [bind py_iter]. apply Hlist.
Qed.

(** ** Parameters of the listings *)

(** X8.  [list_movies] and [list_series] ask for the sort field that
    [SORT_MAP] gives for their [sort] argument and for DateCreated when the
    argument is none of its names; the order is Descending exactly when the
    argument is "added", "year" or "rating".  So an unknown name sorts by
    DateCreated in Ascending order, the reverse of the default "added". *)
Theorem movies_series_sort (c : tool_call) (genre sort : string) (limit : Z)
        (log : list request) :
  _check_config = None ->
  c = Call_list_movies genre sort limit \/ c = Call_list_series genre sort limit ->
  exists (url : string) (params : dict) (sort_by sort_order : string),
    snd (call_tool c log) = (log ++ [(url, params)])%list
    /\ dict_get params "SortBy" = Some (PStr sort_by)
    /\ dict_get params "SortOrder" = Some (PStr sort_order)
    /\ (forall field, In (sort, field) SORT_MAP -> sort_by = field)
    /\ (~ In sort ["name"; "added"; "year"; "rating"; "random"] ->
        sort_by = "DateCreated" /\ sort_order = "Ascending")
    /\ (sort_order = "Descending" <-> In sort ["added"; "year"; "rating"])
    /\ (sort_order = "Ascending" <-> ~ In sort ["added"; "year"; "rating"]).
Proof.
  intros Hcfg Hc.
  assert (Hdesc : (if mem sort ["added"; "year"; "rating"] then "Descending" else "Ascending")
                  = "Descending" <-> In sort ["added"; "year"; "rating"]).
  { apply sort_order_descending. }
  assert (Hasc : (if mem sort ["added"; "year"; "rating"] then "Descending" else "Ascending")
                 = "Ascending" <-> ~ In sort ["added"; "year"; "rating"]).
  { rewrite <- mem_In. destruct (mem sort ["added"; "year"; "rating"]); split;
      intros; try reflexivity; try discriminate; congruence. }
  destruct Hc as [-> | ->]; open_tool Hcfg;
    eexists _, _, (table_get_default SORT_MAP sort "DateCreated"),
      (if mem sort ["added"; "year"; "rating"] then "Descending" else "Ascending");
    (split; [reflexivity|]);
    (split; [destruct (truthy (PStr genre)); reflexivity|]);
    (split; [destruct (truthy (PStr genre)); reflexivity|]);
    (split; [|split; [|split; [exact Hdesc | exact Hasc]]]).
  all: try (intros field Hin; simpl in Hin;
            repeat (destruct Hin as [Hin|Hin]; [injection Hin as <- <-; reflexivity|]);
            contradiction).
  all: intros Hnot; split; [now apply sort_map_unknown|];
    apply Hasc; intros Hin; apply Hnot; simpl in Hin |- *; tauto.
Qed.

(** X9.  A filter is sent only when the caller gives it: the request of
    [list_albums] has the parameter [Artists] exactly when [artist] is not
    empty, then with that value, and the requests of [list_albums],
    [list_movies] and [list_series] have [Genres] exactly when [genre] is not
    empty. *)
Theorem filters_when_given (artist genre sort : string) (limit : Z) (log : list request) :
  _check_config = None ->
  (exists (url : string) (params : dict),
      snd (list_albums artist genre sort limit log) = (log ++ [(url, params)])%list
      /\ dict_get params "Artists" = (if (artist =? "")%string then None else Some (PStr artist))
      /\ dict_get params "Genres" = (if (genre =? "")%string then None else Some (PStr genre)))
  /\ (exists (url : string) (params : dict),
         snd (list_movies genre sort limit log) = (log ++ [(url, params)])%list
         /\ dict_get params "Artists" = None
         /\ dict_get params "Genres" = (if (genre =? "")%string then None else Some (PStr genre)))
  /\ (exists (url : string) (params : dict),
         snd (list_series genre sort limit log) = (log ++ [(url, params)])%list
         /\ dict_get params "Artists" = None
         /\ dict_get params "Genres" = (if (genre =? "")%string then None else Some (PStr genre))).
Proof.
  intros Hcfg.
  split; [|split]; open_tool Hcfg; eexists _, _; (split; [reflexivity|]);
    cbn [truthy]; destruct (genre =? "")%string; try destruct (artist =? "")%string;
    split; reflexivity.
Qed.


(** * Further properties of [_format_item] *)

(** ** Only some keys are read *)

Lemma extract_read_keys (d d' : dict) (f : string) :
  (forall k, In k read_keys -> dict_get d k = dict_get d' k) ->
  extract f (PDict d) = extract f (PDict d').
Proof.
  intros H.
  destruct (mem f vocabulary) eqn:Ef.
  - apply mem_In in Ef. unfold vocabulary in Ef. cbn [In] in Ef.
    repeat (destruct Ef as [<-|Ef]); try contradiction;
      try (rewrite !extract_api_stream, (H "Id") by (apply mem_In; reflexivity);
           reflexivity);
      unfold extract; cbn [table_get extractors String.eqb Ascii.eqb Bool.eqb];
      rewrite !py_get_dict; unfold field_of;
      match goal with
      | |- context [dict_get d ?k] => rewrite (H k) by (apply mem_In; reflexivity)
      end; reflexivity.
  - rewrite in_vocabulary in Ef. unfold extract.
    destruct (table_get extractors f); [discriminate | reflexivity].
Qed.

Lemma format_loop_ext (raw raw' : pyval) (fields : list string) (acc : dict) :
  (forall f, extract f raw = extract f raw') ->
  format_loop raw fields acc = format_loop raw' fields acc.
Proof.
  intros H. revert acc. induction fields as [|f rest IH]; intros acc; cbn [format_loop];
    [reflexivity|].
  specialize (H f). unfold extract in H.
  destruct (table_get extractors f) as [e|]; [|apply IH].
  rewrite H. destruct (e raw') as [v|x]; cbn [bind]; [|reflexivity].
  destruct (is_none v); cbn [negb]; apply IH.
Qed.

(** X10.  [_format_item] reads fourteen keys of the raw item and nothing else:
    two objects that agree on [Id], [Name], [Artists], [AlbumArtist], [Album],
    [ProductionYear], [Genres], [IndexNumber], [RunTimeTicks], [Overview],
    [ChildCount], [Type], [Path] and [MediaSources] have the same outcome for
    every list of fields, whatever else they hold. *)
Theorem format_item_reads_only (d d' : dict) (fields : list string) :
  (forall k, In k read_keys -> dict_get d k = dict_get d' k) ->
  _format_item (PDict d) fields = _format_item (PDict d') fields.
Proof.
  intros H. apply format_loop_ext. intros f. now apply extract_read_keys.
Qed.

(** ** Repeated names *)

Lemma dict_set_same_value (d : dict) (k : string) (v : pyval) :
  dict_get d k = Some v -> dict_set d k v = d.
Proof.
  induction d as [|[k' v'] d IH]; cbn [dict_get dict_set]; [discriminate|].
  destruct (String.eqb_spec k' k) as [->|Hne].
  - now intros [= ->].
  - intros H. now rewrite IH.
Qed.

Lemma format_loop_settled (raw : pyval) (f : string) (rest : list string) (acc : dict) :
  settled raw acc f ->
  format_loop raw rest acc
  = format_loop raw (filter (fun y => negb (y =? f)%string) rest) acc.
Proof.
  revert acc. induction rest as [|g rest IH]; intros acc Hs; [reflexivity|].
  cbn [filter]. destruct (String.eqb_spec g f) as [->|Hne]; cbn [negb].
  - cbn [format_loop]. unfold settled in Hs.
    destruct (table_get extractors f) as [e|] eqn:Et; [|now apply IH; unfold settled; rewrite Et].
    destruct Hs as [v [Hv Hacc]]. rewrite Hv. cbn [bind].
    assert (Hs' : settled raw acc f).
    { unfold settled. rewrite Et. now exists v. }
    destruct (is_none v) eqn:En; cbn [negb]; [now apply IH|].
    destruct Hacc as [Hn|Hacc]; [discriminate|].
    rewrite (dict_set_same_value acc f v Hacc). now apply IH.
  - cbn [format_loop].
    destruct (table_get extractors g) as [e|]; [|now apply IH].
    destruct (e raw) as [w|x]; cbn [bind]; [|reflexivity].
    destruct (is_none w); cbn [negb]; [now apply IH|].
    apply IH. unfold settled in Hs |- *.
    destruct (table_get extractors f) as [e'|]; [|exact I].
    destruct Hs as [v [Hv Hacc]]. exists v. split; [exact Hv|].
    destruct Hacc as [Hn|Hacc]; [now left | right].
    now rewrite dict_get_set_other.
Qed.

Lemma format_loop_keep_first (raw : pyval) (fields : list string) (acc : dict) :
  format_loop raw fields acc = format_loop raw (keep_first fields) acc.
Proof.
  revert acc. induction fields as [|f rest IH]; intros acc; [reflexivity|].
  cbn [keep_first format_loop].
  destruct (table_get extractors f) as [e|] eqn:Et.
  - destruct (e raw) as [v|x] eqn:Ev; cbn [bind]; [|reflexivity].
    destruct (is_none v) eqn:En; cbn [negb].
    + rewrite IH. apply format_loop_settled. unfold settled. rewrite Et.
      exists v. split; [exact Ev | now left].
    + rewrite IH. apply format_loop_settled. unfold settled. rewrite Et.
      exists v. split; [exact Ev | right; apply dict_get_set_same].
  - rewrite IH. apply format_loop_settled. unfold settled. now rewrite Et.
Qed.

Lemma filter_none {A : Type} (p : A -> bool) (l : list A) :
  (forall x, In x l -> p x = false) -> filter p l = [].
Proof.
  induction l as [|a l IH]; intros H; cbn [filter]; [reflexivity|].
  rewrite (H a (or_introl eq_refl)). apply IH. intros x Hx. apply H. now right.
Qed.

Lemma keep_first_incl (x : string) (l : list string) : In x (keep_first l) -> In x l.
Proof.
  induction l as [|a l IH]; cbn [keep_first]; [intros []|].
  intros [->|H]; [now left|]. apply filter_In in H. right. now apply IH.
Qed.

Lemma keep_first_app (l1 l2 : list string) :
  keep_first (l1 ++ l2)%list
  = (keep_first l1 ++ filter (fun y => negb (mem y l1)) (keep_first l2))%list.
Proof.
  induction l1 as [|a l1 IH]; cbn [app keep_first].
  - symmetry. apply filter_id. reflexivity.
  - rewrite IH, filter_app. f_equal. f_equal.
    rewrite filter_filter_and. apply filter_ext. intros x.
    unfold mem. cbn [existsb]. rewrite (String.eqb_sym a x).
    destruct (x =? a)%string; cbn [negb orb]; [now rewrite andb_false_r|].
    now rewrite andb_true_r.
Qed.

(** X11.  Asking for a name more than once is the same as asking for it once,
    at its first place: [_format_item] has the same outcome, mapping or
    exception, on a list of fields and on that list with the repetitions
    taken out; asking for the whole list twice changes nothing either. *)
Theorem format_item_repetitions (raw : pyval) (fields : list string) :
  _format_item raw fields = _format_item raw (keep_first fields)
  /\ _format_item raw (fields ++ fields)%list = _format_item raw fields.
Proof.
  split; [apply format_loop_keep_first|].
  unfold _format_item.
  rewrite (format_loop_keep_first raw (fields ++ fields)%list).
  rewrite (format_loop_keep_first raw fields).
  f_equal. rewrite keep_first_app.
  replace (filter (fun y => negb (mem y fields)) (keep_first fields)) with (@nil string).
  - apply app_nil_r.
  - symmetry. apply filter_none. intros x Hx.
    apply keep_first_incl, mem_In in Hx. now rewrite Hx.
Qed.


(** ** When [_format_item] raises *)

Lemma format_loop_first_error (raw : pyval) (fields : list string) (acc : dict) (x : pyexc) :
  format_loop raw fields acc = Raise x
  <-> exists (pre : list string) (f : string) (post : list string),
        fields = (pre ++ f :: post)%list
        /\ In f vocabulary
        /\ extract f raw = Raise x
        /\ forall g, In g pre -> In g vocabulary -> exists v, extract g raw = Ok v.
Proof.
  split.
  - revert acc. induction fields as [|f rest IH]; intros acc H; cbn [format_loop] in H;
      [discriminate|].
    assert (Hrest : forall acc', format_loop raw rest acc' = Raise x ->
              (forall g, g = f -> In g vocabulary -> exists v, extract g raw = Ok v) ->
              exists pre g post,
                f :: rest = (pre ++ g :: post)%list /\ In g vocabulary
                /\ extract g raw = Raise x
                /\ forall h, In h pre -> In h vocabulary -> exists v, extract h raw = Ok v).
    { intros acc' H' Hf. destruct (IH _ H') as [pre [g [post [-> [Hg [Hx Hpre]]]]]].
      exists (f :: pre), g, post. repeat split; try assumption.
      intros h [<-|Hh]; [now apply Hf | now apply Hpre]. }
    destruct (table_get extractors f) as [e|] eqn:Et.
    + destruct (e raw) as [v|y] eqn:Ee; cbn [bind] in H.
      * assert (Hf : forall g, g = f -> In g vocabulary -> exists v, extract g raw = Ok v).
        { intros g -> _. exists v. unfold extract. now rewrite Et. }
        destruct (is_none v); cbn [negb] in H; now apply Hrest in H.
      * injection H as ->. exists [], f, rest. repeat split.
        -- apply mem_In. rewrite in_vocabulary. now rewrite Et.
        -- unfold extract. now rewrite Et.
        -- intros g [].
    + apply Hrest in H; [exact H|].
      intros g -> Hg. apply mem_In in Hg. rewrite in_vocabulary, Et in Hg. discriminate.
  - intros [pre [f [post [-> [Hf [Hx Hpre]]]]]]. revert acc.
    induction pre as [|g pre IH]; intros acc; cbn [app format_loop].
    + apply mem_In in Hf. rewrite in_vocabulary in Hf. unfold extract in Hx.
      destruct (table_get extractors f) as [e|]; [|discriminate].
      now rewrite Hx.
    + assert (Hpre' : forall h, In h pre -> In h vocabulary -> exists v, extract h raw = Ok v).
      { intros h Hh. apply Hpre. now right. }
      specialize (Hpre g (or_introl eq_refl)).
      rewrite <- mem_In, in_vocabulary in Hpre. unfold extract in Hpre.
      destruct (table_get extractors g) as [e|]; [|now apply IH].
      destruct (Hpre eq_refl) as [v ->]. cbn [bind].
      destruct (is_none v); cbn [negb]; now apply IH.
Qed.

(** X12.  [_format_item] returns a mapping exactly when the extractor of every
    requested name of the vocabulary returns; otherwise it raises the
    exception of the first requested name, in the order of the request, whose
    extractor raises.  What is not requested is never looked at. *)
Theorem format_item_first_error (raw : pyval) (fields : list string) :
  ((exists m : dict, _format_item raw fields = Ok m)
   <-> forall f, In f fields -> In f vocabulary -> exists v, extract f raw = Ok v)
  /\ forall x : pyexc,
       _format_item raw fields = Raise x
       <-> exists (pre : list string) (f : string) (post : list string),
             fields = (pre ++ f :: post)%list
             /\ In f vocabulary
             /\ extract f raw = Raise x
             /\ forall g, In g pre -> In g vocabulary -> exists v, extract g raw = Ok v.
Proof.
  split; [|intros x; apply format_loop_first_error].
  split.
  - intros [m Hm] f Hin Hf.
    destruct (extract f raw) as [v|x] eqn:Ex; [now exists v|].
    exfalso.
    apply in_split in Hin. destruct Hin as [pre [post ->]].
    revert Hm. unfold _format_item. generalize (@nil (string * pyval)).
    induction pre as [|g pre IH]; intros acc Hm; cbn [app format_loop] in Hm.
    + apply mem_In in Hf. rewrite in_vocabulary in Hf. unfold extract in Ex.
      destruct (table_get extractors f) as [e|]; [|discriminate].
      rewrite Ex in Hm. discriminate.
    + destruct (table_get extractors g) as [e|]; [|now apply IH in Hm].
      destruct (e raw) as [v|y]; cbn [bind] in Hm; [|discriminate].
      destruct (is_none v); cbn [negb] in Hm; now apply IH in Hm.
  - intros H. eexists. apply format_loop_total. intros f Hin Hf.
    apply H; [exact Hin | now apply mem_In].
Qed.


(** ** First elements *)

(** Indexing a text and iterating over it agree on its first character. *)
Lemma code_points_head (c : ascii) (rest : string) :
  exists t : list string,
    code_points (String c rest) = String c (continuation rest) :: t.
Proof.
  revert c. induction rest as [|c' rest IH]; intros c.
  - now exists [].
  - destruct (IH c') as [t Ht]. cbn [code_points continuation] in Ht |- *.
    rewrite Ht. destruct (is_continuation c'); now eexists.
Qed.

(** X13.  Of [Artists], [Genres] and [MediaSources] only the first element is
    ever reported: [artist] and [genre] are the first element of their list,
    [container] and [stream_url] are [Container] and [Path] of the first media
    source, whatever follows in the list.  So when the first artist is null
    there is no [artist] key, even when a later one is a name; and a string
    in the place of the list gives its first character, that is its first
    code point: the lead byte with the continuation bytes that follow it. *)
Theorem first_element_only (d : dict) :
  (forall a rest, dict_get d "Artists" = Some (PList (a :: rest)) ->
                  extract "artist" (PDict d) = Ok a)
  /\ (forall a rest, dict_get d "Genres" = Some (PList (a :: rest)) ->
                     extract "genre" (PDict d) = Ok a)
  /\ (forall src rest, dict_get d "MediaSources" = Some (PList (PDict src :: rest)) ->
                       extract "container" (PDict d) = Ok (field_of src "Container")
                       /\ extract "stream_url" (PDict d) = Ok (field_of src "Path"))
  /\ (forall rest fields m,
         dict_get d "Artists" = Some (PList (PNone :: rest)) ->
         _format_item (PDict d) fields = Ok m ->
         dict_get m "artist" = None)
  /\ (forall c s, dict_get d "Artists" = Some (PStr (String c s)) ->
                  extract "artist" (PDict d) = Ok (PStr (String c (continuation s)))).
Proof.
  assert (Hartist : forall a rest, dict_get d "Artists" = Some (PList (a :: rest)) ->
                                   extract "artist" (PDict d) = Ok a).
  { intros a rest H. unfold extract.
    cbn [table_get extractors String.eqb Ascii.eqb Bool.eqb].
    rewrite py_get_dict. unfold field_of. rewrite H. reflexivity. }
  split; [exact Hartist|]. split; [|split; [|split]].
  - intros a rest H. unfold extract.
    cbn [table_get extractors String.eqb Ascii.eqb Bool.eqb].
    rewrite py_get_dict. unfold field_of. rewrite H. reflexivity.
  - intros src rest H. unfold extract.
    cbn [table_get extractors String.eqb Ascii.eqb Bool.eqb].
    rewrite py_get_dict. unfold field_of at 1 3. rewrite H. cbn [bind].
    unfold first_source_get, py_or. cbn [truthy List.length Nat.eqb negb py_first bind].
    now rewrite !py_get_dict.
  - intros rest fields m H Hm.
    apply (format_item_omits (PDict d) fields m Hm). now apply (Hartist PNone rest).
  - intros c s H. unfold extract.
    cbn [table_get extractors String.eqb Ascii.eqb Bool.eqb].
    rewrite py_get_dict. unfold field_of. rewrite H. reflexivity.
Qed.

(** ** Durations and whole seconds *)

Lemma str_int_inj (a b : Z) : str_int a = str_int b -> a = b.
Proof.
  unfold str_int. intros H.
  assert (Hnz : forall z, Z.to_int z <> Decimal.Pos Decimal.Nil
                          /\ Z.to_int z <> Decimal.Neg Decimal.Nil).
  { intros [|p|p]; cbn [Z.to_int]; split; try discriminate;
      intros E; injection E as E; now apply DecimalPos.Unsigned.to_uint_nonnil in E. }
  apply DecimalZ.to_int_inj.
  pose proof (NilZero.isi (Z.to_int a) (proj1 (Hnz a)) (proj2 (Hnz a))) as Ha.
  pose proof (NilZero.isi (Z.to_int b) (proj1 (Hnz b)) (proj2 (Hnz b))) as Hb.
  rewrite H, Hb in Ha. now injection Ha.
Qed.

Lemma append_length (s t : string) :
  String.length (s ++ t) = (String.length s + String.length t)%nat.
Proof. induction s as [|c s IH]; simpl; [reflexivity | now rewrite IH]. Qed.

Lemma append_same_suffix_length (s1 s2 t1 t2 : string) :
  s1 ++ t1 = s2 ++ t2 -> String.length t1 = String.length t2 -> s1 = s2 /\ t1 = t2.
Proof.
  revert s2. induction s1 as [|c s1 IH]; intros [|c2 s2] H Hlen; cbn [append] in H.
  - now split.
  - exfalso. apply (f_equal String.length) in H. simpl String.length in H.
    rewrite append_length in H. lia.
  - exfalso. apply (f_equal String.length) in H. simpl String.length in H.
    rewrite append_length in H. lia.
  - injection H as -> H. destruct (IH s2 H Hlen) as [-> ->]. now split.
Qed.

Lemma digit_inj (a b : Z) : 0 <= a < 10 -> 0 <= b < 10 -> digit a = digit b -> a = b.
Proof.
  intros Ha Hb H. unfold digit in H.
  apply (f_equal nat_of_ascii) in H.
  rewrite !nat_ascii_embedding in H by lia. lia.
Qed.

Lemma two_digits_inj (a b : Z) :
  0 <= a < 60 -> 0 <= b < 60 -> two_digits a = two_digits b -> a = b.
Proof.
  intros Ha Hb H. unfold two_digits in H. injection H as H1 H0.
  assert (Hq : forall n, 0 <= n < 60 -> 0 <= n / 10 < 10).
  { intros n Hn. split; [apply Z.div_pos; lia | apply Z.div_lt_upper_bound; lia]. }
  apply digit_inj in H1; [|now apply Hq|now apply Hq].
  apply digit_inj in H0;
    [| pose proof (Z.mod_pos_bound a 10); lia | pose proof (Z.mod_pos_bound b 10); lia].
  rewrite (Z.div_mod a 10), (Z.div_mod b 10) by lia. now rewrite H1, H0.
Qed.

(** X14.  [_format_duration] tells whole seconds apart and nothing finer: two
    non-zero numbers of ticks give the same string exactly when they have the
    same number of whole seconds, [floor(ticks / 10_000_000)]. *)
Theorem format_duration_same_seconds (a b : Z) :
  a <> 0 -> b <> 0 ->
  (_format_duration (PInt a) = _format_duration (PInt b)
   <-> a / 10000000 = b / 10000000).
Proof.
  intros Ha Hb. rewrite !format_duration_int by assumption.
  set (ta := a / 10000000). set (tb := b / 10000000).
  split.
  - intros H. injection H as H.
    assert (Hsa : 0 <= ta mod 60 < 60) by (apply Z.mod_pos_bound; lia).
    assert (Hsb : 0 <= tb mod 60 < 60) by (apply Z.mod_pos_bound; lia).
    apply append_same_suffix_length in H; [|reflexivity].
    destruct H as [Hm Hs]. apply str_int_inj in Hm.
    injection Hs as Hs. assert (Hs' : two_digits (ta mod 60) = two_digits (tb mod 60)).
    { unfold two_digits. now rewrite Hs, H. }
    apply two_digits_inj in Hs'; [|exact Hsa|exact Hsb].
    rewrite (Z.div_mod ta 60), (Z.div_mod tb 60) by lia. now rewrite Hm, Hs'.
  - intros ->. reflexivity.
Qed.


(** ** [get_stream_url] *)

(** X19.  [get_stream_url] asks for [/Users/{JELLYFIN_USER_ID}/Items/{item_id}],
    with [item_id] put into the path as it is, and returns the projection of
    the answer itself onto id, name, stream_url, container, api_stream: a
    single mapping, never an envelope with [total] or [items].  The [id] and
    the [api_stream] of the result are built from the [Id] of the answer, not
    from [item_id]. *)
Theorem stream_url_single (item_id : string) (log : list request)
        (req : request) (data : pyval) :
  _check_config = None ->
  snd (get_stream_url item_id log) = (log ++ [req])%list ->
  upstream req = Ok data ->
  req = (JELLYFIN_URL ++ "/Users/" ++ JELLYFIN_USER_ID ++ "/Items/" ++ item_id,
         [("Fields", PStr "MediaSources,Path"); ("api_key", PStr JELLYFIN_API_KEY)])
  /\ (forall result : pyval,
         fst (get_stream_url item_id log) = Ok result
         <-> projects ["id"; "name"; "stream_url"; "container"; "api_stream"] data result)
  /\ (forall m : dict,
         fst (get_stream_url item_id log) = Ok (PDict m) ->
         dict_get m "total" = None /\ dict_get m "items" = None)
  /\ (forall (d : dict) (s : string),
         data = PDict d -> item_shaped data = true ->
         dict_get d "Id" = Some (PStr s) -> s <> "" ->
         exists m : dict,
           fst (get_stream_url item_id log) = Ok (PDict m)
           /\ dict_get m "id" = Some (PStr s)
           /\ dict_get m "api_stream"
              = Some (PStr (JELLYFIN_URL ++ "/Audio/" ++ s
                              ++ "/universal?api_key=" ++ JELLYFIN_API_KEY))).
Proof.
  intros Hcfg Hsnd Hup.
  unfold get_stream_url in Hsnd |- *. rewrite Hcfg in Hsnd |- *.
  rewrite run_get in Hsnd |- *. cbn [fst snd] in Hsnd |- *.
  apply app_inj_tail in Hsnd. destruct Hsnd as [_ Hreq].
  rewrite Hreq, Hup. cbn [bind].
  set (fields := ["id"; "name"; "stream_url"; "container"; "api_stream"]).
  assert (Hproj : forall result,
             (m <- _format_item data fields ;; Ok (PDict m)) = Ok result
             <-> projects fields data result).
  { intros result. unfold projects. split.
    - destruct (_format_item data fields) as [m|x]; cbn [bind]; [|discriminate].
      intros [= <-]. now exists m.
    - intros [m [-> ->]]. reflexivity. }
  split; [now symmetry|]. split; [exact Hproj|]. split.
  - intros m Hm. apply Hproj in Hm. destruct Hm as [m' [Hm' [= <-]]].
    assert (Hout : forall k, ~ In k vocabulary -> dict_get m k = None).
    { intros k Hk. destruct (dict_get m k) as [v|] eqn:E; [|reflexivity].
      exfalso. apply Hk. now apply (format_item_sound data fields m Hm' k v). }
    split; apply Hout; unfold vocabulary; simpl; intuition discriminate.
  - intros d s -> Hs Hid Hne.
    rewrite (format_item_shaped (PDict d) fields Hs). cbn [bind].
    eexists. split; [reflexivity|].
    pose proof (format_item_shaped (PDict d) fields Hs) as Hm.
    split.
    + apply (format_item_complete (PDict d) fields _ Hm); [simpl; tauto | | discriminate].
      unfold extract. cbn [table_get extractors String.eqb Ascii.eqb Bool.eqb].
      rewrite py_get_dict. unfold field_of. now rewrite Hid.
    + apply (format_item_complete (PDict d) fields _ Hm); [simpl; tauto | | discriminate].
      rewrite extract_api_stream, Hid.
      apply truthy_str_true in Hne. now rewrite Hne.
Qed.

End Server.

(** * The statements at work on the samples *)

(** ** The cases of [tests/test_server.py] *)

Example test_extracts_fields :
  _format_item sample_url sample_key sample_repr sample_song
    ["id"; "name"; "artist"; "album"; "year"; "duration"]
  = Ok [ ("id", PStr "abc123"); ("name", PStr "Bohemian Rhapsody");
         ("artist", PStr "Queen"); ("album", PStr "A Night at the Opera");
         ("year", PInt 1975); ("duration", PStr "5:55") ].
Proof. vm_compute. reflexivity. Qed.

Example test_skips_none_values :
  _format_item sample_url sample_key sample_repr
    (PDict [("Id", PStr "x"); ("Name", PStr "Test")]) ["id"; "name"; "artist"; "album"]
  = Ok [("id", PStr "x"); ("name", PStr "Test")].
Proof. vm_compute. reflexivity. Qed.

Example test_empty_artists_list :
  _format_item sample_url sample_key sample_repr
    (PDict [("Id", PStr "x"); ("Artists", PList [])]) ["id"; "artist"]
  = Ok [("id", PStr "x")].
Proof. vm_compute. reflexivity. Qed.

Example test_media_sources :
  _format_item sample_url sample_key sample_repr
    (PDict [ ("Id", PStr "x");
             ("MediaSources",
              PList [PDict [("Path", PStr "/music/song.flac"); ("Container", PStr "flac")]]) ])
    ["id"; "stream_url"; "container"]
  = Ok [("id", PStr "x"); ("stream_url", PStr "/music/song.flac"); ("container", PStr "flac")].
Proof. vm_compute. reflexivity. Qed.

Example test_returns_list :
  get_recent sample_url sample_key sample_user sample_repr upstream_latest "MusicAlbum" 20 []
  = (Ok (PDict
           [ ("total", PInt 2);
             ("items",
              PList [ PDict [ ("id", PStr "r1"); ("name", PStr "New Album");
                              ("album_artist", PStr "Band"); ("year", PInt 2025);
                              ("genre", PStr "Pop") ];
                      PDict [ ("id", PStr "r2"); ("name", PStr "Another Album");
                              ("album_artist", PStr "Solo"); ("year", PInt 2024);
                              ("genre", PStr "Rock") ] ]) ]),
     [ ("http://jellyfin.local:8096/Users/test-user-id/Items/Latest",
        [ ("IncludeItemTypes", PStr "MusicAlbum"); ("Limit", PInt 20);
          ("Fields", PStr "Genres,Artists,AlbumArtist,Album,ProductionYear");
          ("api_key", PStr "test-api-key") ]) ]).
Proof. vm_compute. reflexivity. Qed.

(** An ill-typed item makes the extractor raise, and the tool with it. *)
Example artists_not_a_list :
  _format_item sample_url sample_key sample_repr (PDict [("Artists", PInt 5)]) ["id"; "artist"]
  = Raise TypeError.
Proof. vm_compute. reflexivity. Qed.

(** ** Instances of the statements *)

Lemma format_duration_spec_witness :
  3300000000 <> 0
  /\ _format_duration (PInt 3300000000) = Ok (PStr "5:30")
  /\ _format_duration (PList []) = Ok PNone
  /\ _format_duration (PInt (90 * 600000000)) = Ok (PStr "90:00").
Proof.
  pose proof format_duration_spec as [_ [_ [Hfalsy [Hint [Hmin _]]]]].
  split; [lia|]. split; [|split].
  - exact (proj1 (Hint 3300000000 ltac:(lia))).
  - apply Hfalsy. reflexivity.
  - apply (Hmin 90). lia.
Defined.

Lemma config_gate_witness :
  call_tool "" sample_key sample_user sample_repr upstream_empty Call_list_genres []
  = (Ok (PDict [("error", PStr "JELLYFIN_URL not configured")]), [])
  /\ call_tool sample_url "" "" sample_repr upstream_empty (Call_get_recent "Audio" 20) []
     = (Ok (PDict [("error", PStr "JELLYFIN_API_KEY not configured")]), [])
  /\ call_tool sample_url sample_key "" sample_repr upstream_empty Call_library_stats []
     = (Ok (PDict [("error", PStr "JELLYFIN_USER_ID not configured")]), [])
  /\ _check_config sample_url sample_key sample_user = None.
Proof.
  split; [|split; [|split]].
  - apply (config_gate "" sample_key sample_user sample_repr upstream_empty
             Call_list_genres []).
    reflexivity.
  - apply (config_gate sample_url "" "" sample_repr upstream_empty
             (Call_get_recent "Audio" 20) []);
      [discriminate | reflexivity].
  - apply (config_gate sample_url sample_key "" sample_repr upstream_empty
             Call_library_stats []);
      [discriminate | discriminate | reflexivity].
  - apply (config_gate sample_url sample_key sample_user sample_repr upstream_empty
             Call_library_stats []).
    repeat split; discriminate.
Defined.

Lemma limit_clamped_witness :
  (exists (url : string) (params : dict),
      snd (call_tool sample_url sample_key sample_user sample_repr upstream_empty
             (Call_search_media "x" "Audio" 200) [])
      = [(url, params)]
      /\ dict_get params "Limit" = Some (PInt 50))
  /\ fst (call_tool sample_url sample_key sample_user sample_repr upstream_empty
            (Call_search_media "x" "Audio" 200) [])
     = Ok (PDict [("total", PInt 0); ("items", PList [])]).
Proof.
  pose proof (limit_clamped sample_url sample_key sample_user sample_repr upstream_empty
                [] eq_refl) as [Hall _].
  destruct (Hall (Call_search_media "x" "Audio" 200) 200 50 eq_refl eq_refl)
    as [[url [params [n [Hlog [Hlimit [_ [_ [_ Hcap]]]]]]]] Hok].
  split.
  - exists url, params. split; [exact Hlog|].
    rewrite Hlimit. rewrite (Hcap ltac:(lia)). reflexivity.
  - apply Hok. intros r. reflexivity.
Defined.

Lemma list_albums_sort_witness :
  exists (url : string) (params : dict),
    snd (list_albums sample_url sample_key sample_user sample_repr upstream_albums
           "" "" "year" 50 [])
    = [(url, params)]
    /\ dict_get params "SortBy" = Some (PStr "PremiereDate")
    /\ dict_get params "SortOrder" = Some (PStr "Descending").
Proof.
  destruct (list_albums_sort sample_url sample_key sample_user sample_repr upstream_albums
              "" "" "year" 50 [] eq_refl)
    as [url [params [sort_by [sort_order [Hlog [Hby [Horder Hrest]]]]]]].
  exists url, params. split; [exact Hlog|].
  assert (Hyear : sort_by = "PremiereDate" /\ sort_order = "Descending").
  { apply Hrest. reflexivity. }
  destruct Hyear as [<- <-]. split; assumption.
Defined.

Lemma format_item_spec_witness :
  (exists m : dict,
      _format_item sample_url sample_key sample_repr sample_song
        ["id"; "bogus"; "artist"; "genre"] = Ok m
      /\ dict_get m "artist" = Some (PStr "Queen")
      /\ dict_get m "bogus" = None
      /\ dict_get m "genre" = None
      /\ (forall k, dict_get m k <> Some PNone))
  /\ dict_get [("id", PStr "x")] "artist" = None
  /\ (exists f : string,
         In f ["id"; "artist"] /\ In f vocabulary
         /\ extract sample_url sample_key sample_repr f (PDict [("Artists", PInt 5)])
            = Raise TypeError).
Proof.
  split; [|split].
  - pose proof (format_item_spec sample_url sample_key sample_repr sample_song
                  ["id"; "bogus"; "artist"; "genre"]) as [Hm [_ [_ [_ Htotal]]]].
    destruct (Htotal eq_refl) as [m E]. exists m.
    destruct (Hm m E) as [_ [Hbound [Hunknown [Hnull Hnn]]]].
    split; [exact E|]. split; [|split; [|split]].
    + apply Hbound; [simpl; tauto | reflexivity | discriminate].
    + apply Hunknown. unfold vocabulary. simpl. intuition discriminate.
    + apply Hnull. reflexivity.
    + exact Hnn.
  - pose proof (format_item_spec sample_url sample_key sample_repr
                  (PDict [("Id", PStr "x"); ("Artists", PList [])]) ["id"; "artist"])
      as [_ [_ [_ [Hartist _]]]].
    apply (Hartist [("Id", PStr "x"); ("Artists", PList [])] [("id", PStr "x")] eq_refl);
      [right; right; reflexivity | reflexivity].
  - pose proof (format_item_spec sample_url sample_key sample_repr
                  (PDict [("Artists", PInt 5)]) ["id"; "artist"])
      as [_ [_ [Hraise _]]].
    apply Hraise. reflexivity.
Defined.

Lemma api_stream_spec_witness :
  extract sample_url sample_key sample_repr "api_stream" sample_song
  = Ok (PStr "http://jellyfin.local:8096/Audio/abc123/universal?api_key=test-api-key")
  /\ extract sample_url sample_key sample_repr "api_stream" (PDict [("Id", PInt 7)])
     = Ok (PStr "http://jellyfin.local:8096/Audio/7/universal?api_key=test-api-key")
  /\ extract sample_url sample_key sample_repr "api_stream" (PDict [("Id", PStr "")])
     = Ok PNone
  /\ extract sample_url sample_key sample_repr "api_stream" (PDict [("Name", PStr "x")])
     = Ok PNone.
Proof.
  split; [|split; [|split]].
  - pose proof (api_stream_spec sample_url sample_key sample_repr sample_song_object)
      as [_ [Hstr _]].
    apply (Hstr "abc123"); [reflexivity | discriminate].
  - pose proof (api_stream_spec sample_url sample_key sample_repr [("Id", PInt 7)])
      as [Htruthy _].
    exact (proj1 (Htruthy (PInt 7) eq_refl eq_refl)).
  - pose proof (api_stream_spec sample_url sample_key sample_repr [("Id", PStr "")])
      as [_ [_ Habsent]].
    apply Habsent. right. exists (PStr ""). split; reflexivity.
  - pose proof (api_stream_spec sample_url sample_key sample_repr [("Name", PStr "x")])
      as [_ [_ Habsent]].
    apply Habsent. left. reflexivity.
Defined.

Lemma format_item_key_order_witness :
  (exists m : dict,
      _format_item sample_url sample_key sample_repr sample_song
        ["name"; "id"; "genre"; "name"; "artist"] = Ok m
      /\ map fst m = ["name"; "id"; "artist"])
  /\ (exists m : dict,
         _format_item sample_url sample_key sample_repr sample_song
           ["year"; "genre"; "id"] = Ok m
         /\ map fst m = ["year"; "id"]).
Proof.
  split.
  - pose proof (format_item_key_order sample_url sample_key sample_repr sample_song
                  ["name"; "id"; "genre"; "name"; "artist"]) as [Hkeys Htotal].
    destruct (Htotal eq_refl) as [m E]. exists m. split; [exact E|].
    exact (proj1 (Hkeys m E)).
  - pose proof (format_item_key_order sample_url sample_key sample_repr sample_song
                  ["year"; "genre"; "id"]) as [Hkeys Htotal].
    destruct (Htotal eq_refl) as [m E]. exists m. split; [exact E|].
    destruct (Hkeys m E) as [_ [_ [_ Hnodup]]].
    apply Hnodup. repeat constructor; simpl; intuition discriminate.
Defined.

Lemma get_recent_bare_array_witness :
  exists items : list pyval,
    fst (get_recent sample_url sample_key sample_user sample_repr upstream_latest
           "MusicAlbum" 20 [])
    = Ok (PDict [ ("total", PInt (Z.of_nat (List.length items))); ("items", PList items) ])
    /\ List.length items = 2%nat.
Proof.
  pose proof (get_recent_bare_array sample_url sample_key sample_user sample_repr
                upstream_latest "MusicAlbum" 20 []
                ("http://jellyfin.local:8096/Users/test-user-id/Items/Latest",
                 [ ("IncludeItemTypes", PStr "MusicAlbum"); ("Limit", PInt 20);
                   ("Fields", PStr "Genres,Artists,AlbumArtist,Album,ProductionYear");
                   ("api_key", PStr "test-api-key") ])
                sample_albums eq_refl eq_refl eq_refl) as [Hres Htotal].
  destruct (Htotal eq_refl) as [result E].
  destruct (Hres result E) as [fields [items [-> [Hlen _]]]].
  exists items. split; [exact E | exact Hlen].
Defined.

Lemma get_recent_envelope_witness :
  fst (get_recent sample_url sample_key sample_user sample_repr upstream_empty
         "Audio" 20 [])
  = Ok (PDict [("total", PInt 0); ("items", PList [])])
  /\ exists items : list pyval,
       fst (get_recent sample_url sample_key sample_user sample_repr upstream_albums
              "MusicAlbum" 20 [])
       = Ok (PDict [ ("total", PInt (Z.of_nat (List.length items)));
                     ("items", PList items) ])
       /\ List.length items = 2%nat.
Proof.
  split.
  - apply (get_recent_envelope sample_url sample_key sample_user sample_repr
             upstream_empty "Audio" 20 []
             ("http://jellyfin.local:8096/Users/test-user-id/Items/Latest",
              [ ("IncludeItemTypes", PStr "Audio"); ("Limit", PInt 20);
                ("Fields", PStr "Genres,Artists,AlbumArtist,Album,ProductionYear");
                ("api_key", PStr "test-api-key") ])
             [] eq_refl eq_refl eq_refl).
    reflexivity.
  - pose proof (get_recent_envelope sample_url sample_key sample_user sample_repr
                  upstream_albums "MusicAlbum" 20 []
                  ("http://jellyfin.local:8096/Users/test-user-id/Items/Latest",
                   [ ("IncludeItemTypes", PStr "MusicAlbum"); ("Limit", PInt 20);
                     ("Fields", PStr "Genres,Artists,AlbumArtist,Album,ProductionYear");
                     ("api_key", PStr "test-api-key") ])
                  [("TotalRecordCount", PInt 40); ("Items", PList sample_albums)]
                  eq_refl eq_refl eq_refl) as [_ Hlist].
    destruct (Hlist sample_albums eq_refl) as [Hres Htotal].
    destruct (Htotal eq_refl) as [result E].
    destruct (Hres result E) as [fields [items [-> [Hlen _]]]].
    exists items. split; [exact E | exact Hlen].
Defined.

Lemma list_genres_entries_witness :
  fst (list_genres sample_url sample_key sample_user upstream_genres [])
  = Ok (PDict
          [ ("total", PInt 3);
            ("items",
             PList [ PDict [("id", PStr "g1"); ("name", PStr "Rock")];
                     PDict [("id", PNone); ("name", PStr "Jazz")];
                     PDict [("id", PNone); ("name", PNone)] ]) ])
  /\ dict_get [("name", PStr "Jazz")] "id" = None
  /\ no_null (PDict [("name", PStr "Jazz")]).
Proof.
  pose proof (list_genres_entries sample_url sample_key sample_user sample_repr
                upstream_genres []
                ("http://jellyfin.local:8096/MusicGenres",
                 [("Limit", PInt 50); ("api_key", PStr "test-api-key")])
                [("TotalRecordCount", PInt 3); ("Items", PList (map PDict sample_genres))]
                sample_genres eq_refl eq_refl eq_refl eq_refl)
    as [Hresult [_ [Hproject Hothers]]].
  split; [exact Hresult|]. split.
  - apply (Hproject [("Name", PStr "Jazz")] ["id"; "name"] [("name", PStr "Jazz")] eq_refl).
    reflexivity.
  - apply (Hothers (Call_list_artists 50) []
             [ ("total", PInt 3);
               ("items", PList [ PDict [("id", PStr "g1"); ("name", PStr "Rock")];
                                 PDict [("name", PStr "Jazz")];
                                 PDict [] ]) ]
             [ PDict [("id", PStr "g1"); ("name", PStr "Rock")];
               PDict [("name", PStr "Jazz")];
               PDict [] ]);
      [discriminate | reflexivity | reflexivity | simpl; tauto].
Defined.

(** ** Inputs on which the wording of the specification fails *)

(** [Id] is there, and [_format_item] reports it under [id], yet there is no
    [api_stream]: the extractor asks for a truthy [Id], and the empty string
    is not. *)
Lemma api_stream_empty_id :
  (exists i : pyval, dict_get [("Id", PStr "")] "Id" = Some i /\ i <> PNone)
  /\ extract sample_url sample_key sample_repr "api_stream" (PDict [("Id", PStr "")])
     = Ok PNone
  /\ extract sample_url sample_key sample_repr "api_stream" (PDict [("Id", PStr "")])
     <> Ok (PStr "http://jellyfin.local:8096/Audio//universal?api_key=test-api-key")
  /\ _format_item sample_url sample_key sample_repr (PDict [("Id", PStr "")])
       ["id"; "api_stream"]
     = Ok [("id", PStr "")].
Proof.
  split; [|split; [|split]].
  - exists (PStr ""). split; [reflexivity | discriminate].
  - reflexivity.
  - discriminate.
  - reflexivity.
Qed.

(** A name requested twice is one key: the keys are not the filtered request. *)
Lemma format_item_repeated_name :
  _format_item sample_url sample_key sample_repr (PDict [("Id", PStr "1")]) ["id"; "id"]
  = Ok [("id", PStr "1")]
  /\ filter (present sample_url sample_key sample_repr (PDict [("Id", PStr "1")]))
            ["id"; "id"]
     = ["id"; "id"]
  /\ map fst [("id", PStr "1")]
     <> filter (present sample_url sample_key sample_repr (PDict [("Id", PStr "1")]))
               ["id"; "id"].
Proof.
  split; [|split].
  - reflexivity.
  - reflexivity.
  - discriminate.
Qed.

(** [list_genres] is not the only tool that can emit a key bound to null:
    [library_stats] and the [total] of a listing pass an explicit null of the
    upstream through, since [data.get(k, 0)] gives 0 for a missing key only. *)
Lemma null_outside_listed_items :
  Call_library_stats <> Call_list_genres
  /\ fst (call_tool sample_url sample_key sample_user sample_repr upstream_counts
            Call_library_stats [])
     = Ok (PDict [ ("songs", PInt 1234); ("albums", PNone); ("artists", PInt 0);
                   ("movies", PInt 0); ("series", PInt 0); ("episodes", PInt 0) ])
  /\ Call_list_artists 50 <> Call_list_genres
  /\ fst (call_tool sample_url sample_key sample_user sample_repr upstream_null_total
            (Call_list_artists 50) [])
     = Ok (PDict [("total", PNone); ("items", PList [])]).
Proof.
  split; [discriminate|]. split; [reflexivity|]. split; [discriminate | reflexivity].
Qed.

(** * The configuration and the requests *)

Ltac unfold_tools :=
  unfold call_tool, search_media, list_albums, list_artists, get_album_tracks,
    get_artist_albums, list_genres, get_recent, get_favorites, get_playlists,
    list_movies, list_series, get_stream_url, library_stats.

(** X15.  With a complete configuration every call issues exactly one GET,
    whatever the upstream answers or raises: the log grows by one request,
    whose URL is [JELLYFIN_URL] followed by a path that starts with a slash,
    and whose parameters carry [api_key] with the configured key. *)
Theorem one_request (JELLYFIN_URL JELLYFIN_API_KEY JELLYFIN_USER_ID : string)
        (py_repr : pyval -> string) (c : tool_call) (log : list request) :
  _check_config JELLYFIN_URL JELLYFIN_API_KEY JELLYFIN_USER_ID = None ->
  exists (path : string) (params : dict),
    (forall upstream : string * dict -> outcome pyval,
        snd (call_tool JELLYFIN_URL JELLYFIN_API_KEY JELLYFIN_USER_ID py_repr upstream c log)
        = List.app log [(JELLYFIN_URL ++ path, params)])
    /\ (exists rest : string, path = String "/" rest)
    /\ dict_get params "api_key" = Some (PStr JELLYFIN_API_KEY).
Proof.
  intros Hcfg.
  destruct c; eexists _, _;
    (split; [intros upstream; unfold_tools; rewrite Hcfg; cbv zeta; rewrite run_get;
             reflexivity|]);
    (split; [eexists; reflexivity | apply dict_get_set_same]).
Qed.

(** X16.  [search_media], [list_artists], [list_genres] and [library_stats]
    do not use the user id: with any two non-empty user ids they do the same.
    Every other tool asks under [/Users/{JELLYFIN_USER_ID}]. *)
Theorem user_id_use (JELLYFIN_URL JELLYFIN_API_KEY : string)
        (py_repr : pyval -> string) (upstream : string * dict -> outcome pyval)
        (c : tool_call) (log : list request) :
  (user_scoped c = false ->
   forall uid1 uid2 : string,
     uid1 <> "" -> uid2 <> "" ->
     call_tool JELLYFIN_URL JELLYFIN_API_KEY uid1 py_repr upstream c log
     = call_tool JELLYFIN_URL JELLYFIN_API_KEY uid2 py_repr upstream c log)
  /\ (user_scoped c = true ->
      forall uid : string,
        _check_config JELLYFIN_URL JELLYFIN_API_KEY uid = None ->
        exists (rest : string) (params : dict),
          snd (call_tool JELLYFIN_URL JELLYFIN_API_KEY uid py_repr upstream c log)
          = List.app log [(JELLYFIN_URL ++ "/Users/" ++ uid ++ rest, params)]).
Proof.
  split.
  - intros Hc uid1 uid2 H1 H2.
    apply truthy_str_true in H1. apply truthy_str_true in H2.
    destruct c; try discriminate Hc; unfold_tools; unfold _check_config;
      rewrite H1, H2; reflexivity.
  - intros Hc uid Hcfg.
    destruct c; try discriminate Hc; unfold_tools; rewrite Hcfg; cbv zeta; rewrite run_get;
      eexists _, _; reflexivity.
Qed.

(** ** Loading the configuration *)

Lemma rstrip_slashes (n : nat) : rstrip_slash (slashes n) = "".
Proof. induction n as [|n IH]; cbn [slashes rstrip_slash]; [reflexivity | now rewrite IH]. Qed.

Lemma rstrip_append_slashes (s : string) (n : nat) :
  rstrip_slash (s ++ slashes n) = rstrip_slash s.
Proof.
  induction s as [|c s IH]; cbn [append]; [apply rstrip_slashes|].
  cbn [rstrip_slash]. now rewrite IH.
Qed.

Lemma rstrip_decompose (s : string) : exists n : nat, s = rstrip_slash s ++ slashes n.
Proof.
  induction s as [|c s [n IH]]; [now exists O|].
  cbn [rstrip_slash]. destruct (rstrip_slash s) as [|c' r] eqn:E.
  - cbn [append] in IH. destruct (Ascii.eqb_spec c "/") as [->|Hne].
    + exists (S n). cbn [append slashes]. now rewrite <- IH.
    + exists n. cbn [append]. now rewrite <- IH.
  - exists n. cbn [append] in IH |- *. now rewrite <- IH.
Qed.

Lemma rstrip_no_slash_end (s t : string) : rstrip_slash s <> t ++ "/".
Proof.
  revert t. induction s as [|c s IH]; intros t H; cbn [rstrip_slash] in H.
  - destruct t; discriminate.
  - destruct (rstrip_slash s) as [|c' r] eqn:E.
    + destruct (Ascii.eqb_spec c "/") as [->|Hne].
      * destruct t; discriminate.
      * destruct t as [|c2 t]; cbn [append] in H.
        -- injection H as ->. now apply Hne.
        -- injection H as _ H. destruct t; discriminate.
    + destruct t as [|c2 t]; cbn [append] in H; [discriminate|].
      injection H as _ H. now apply (IH t).
Qed.

(** X17.  [rstrip("/")], as the module applies it to [JELLYFIN_URL]: the
    result is the text with all the slashes at its end removed and nothing
    else touched; it never ends with a slash; stripping again, or stripping a
    text with more slashes at its end, gives the same. *)
Theorem rstrip_slash_spec (s : string) :
  (exists n : nat, s = rstrip_slash s ++ slashes n)
  /\ (forall t : string, rstrip_slash s <> t ++ "/")
  /\ rstrip_slash (rstrip_slash s) = rstrip_slash s
  /\ (forall n : nat, rstrip_slash (s ++ slashes n) = rstrip_slash s).
Proof.
  split; [apply rstrip_decompose|]. split; [apply rstrip_no_slash_end|].
  split; [|apply rstrip_append_slashes].
  destruct (rstrip_decompose s) as [n Hn].
  rewrite Hn at 2. now rewrite rstrip_append_slashes.
Qed.

(** X18.  The configuration is read from the environment with the slashes at
    the end of the URL taken off.  So a URL that is unset, empty or made of
    slashes only leaves every tool answering that [JELLYFIN_URL] is not
    configured, without any request; and two environments that differ only
    by slashes at the end of the URL give the same server.  The key and the
    user id are taken as they are. *)
Theorem environment_configuration (env : environ) (py_repr : pyval -> string)
        (upstream : string * dict -> outcome pyval) (c : tool_call) (log : list request) :
  (env "JELLYFIN_URL" = None \/ (exists n, env "JELLYFIN_URL" = Some (slashes n)) ->
   call_tool (env_JELLYFIN_URL env) (env_JELLYFIN_API_KEY env) (env_JELLYFIN_USER_ID env)
     py_repr upstream c log
   = (Ok (PDict [("error", PStr "JELLYFIN_URL not configured")]), log))
  /\ (forall (env' : environ) (s : string) (n : nat),
         env "JELLYFIN_URL" = Some s ->
         env' "JELLYFIN_URL" = Some (s ++ slashes n) ->
         env' "JELLYFIN_API_KEY" = env "JELLYFIN_API_KEY" ->
         env' "JELLYFIN_USER_ID" = env "JELLYFIN_USER_ID" ->
         call_tool (env_JELLYFIN_URL env') (env_JELLYFIN_API_KEY env')
           (env_JELLYFIN_USER_ID env') py_repr upstream c log
         = call_tool (env_JELLYFIN_URL env) (env_JELLYFIN_API_KEY env)
             (env_JELLYFIN_USER_ID env) py_repr upstream c log)
  /\ (forall k u : string,
         env "JELLYFIN_API_KEY" = Some k -> env "JELLYFIN_USER_ID" = Some u ->
         env_JELLYFIN_API_KEY env = k /\ env_JELLYFIN_USER_ID env = u).
Proof.
  split; [|split].
  - intros Hurl. apply gate_closed.
    assert (E : env_JELLYFIN_URL env = "").
    { unfold env_JELLYFIN_URL, environ_get.
      destruct Hurl as [->|[n ->]]; [reflexivity | apply rstrip_slashes]. }
    unfold _check_config. now rewrite E.
  - intros env' s n Hs Hs' Hk Hu.
    unfold env_JELLYFIN_URL, env_JELLYFIN_API_KEY, env_JELLYFIN_USER_ID, environ_get.
    now rewrite Hs, Hs', Hk, Hu, rstrip_append_slashes.
  - intros k u Hk Hu. unfold env_JELLYFIN_API_KEY, env_JELLYFIN_USER_ID, environ_get.
    now rewrite Hk, Hu.
Qed.

(** * Instances of the further properties *)

Lemma upstream_error_propagates_witness :
  fst (call_tool sample_url sample_key sample_user sample_repr upstream_down
         (Call_list_artists 50) [])
  = Raise (UpstreamError "connection refused").
Proof.
  apply (upstream_error_propagates sample_url sample_key sample_user sample_repr
           upstream_down (Call_list_artists 50) []
           ("http://jellyfin.local:8096/Artists",
            [ ("Limit", PInt 50); ("Fields", PStr "Genres,Overview");
              ("api_key", PStr "test-api-key") ]));
    reflexivity.
Defined.

Lemma non_object_answer_witness :
  fst (call_tool sample_url sample_key sample_user sample_repr upstream_text
         Call_library_stats [])
  = Raise AttributeError
  /\ fst (call_tool sample_url sample_key sample_user sample_repr upstream_latest
            (Call_search_media "x" "Audio" 20) [])
     = Raise AttributeError.
Proof.
  split.
  - apply (non_object_answer sample_url sample_key sample_user sample_repr upstream_text
             Call_library_stats []
             ("http://jellyfin.local:8096/Items/Counts", [("api_key", PStr "test-api-key")])
             (PStr "maintenance"));
      [reflexivity | reflexivity | reflexivity | exact I].
  - apply (non_object_answer sample_url sample_key sample_user sample_repr upstream_latest
             (Call_search_media "x" "Audio" 20) []
             ("http://jellyfin.local:8096/Items",
              [ ("searchTerm", PStr "x"); ("IncludeItemTypes", PStr "Audio");
                ("Recursive", PStr "true"); ("Limit", PInt 20);
                ("Fields",
                 PStr "Genres,Artists,AlbumArtist,Album,ProductionYear,RunTimeTicks");
                ("api_key", PStr "test-api-key") ])
             (PList sample_albums));
      [reflexivity | reflexivity | reflexivity | discriminate].
Defined.

Lemma same_clamp_same_call_witness :
  call_tool sample_url sample_key sample_user sample_repr upstream_albums
    (Call_search_media "x" "MusicAlbum" 200) []
  = call_tool sample_url sample_key sample_user sample_repr upstream_albums
      (Call_search_media "x" "MusicAlbum" 50) []
  /\ call_tool sample_url sample_key sample_user sample_repr upstream_albums
       (Call_list_artists (-5)) []
     = call_tool sample_url sample_key sample_user sample_repr upstream_albums
         (Call_list_artists 1) [].
Proof.
  split.
  - pose proof (same_clamp_same_call sample_url sample_key sample_user sample_repr
                  upstream_albums (Call_search_media "x" "MusicAlbum" 0) 50 [] eq_refl)
      as [_ [Hcap _]].
    apply (Hcap 200). lia.
  - pose proof (same_clamp_same_call sample_url sample_key sample_user sample_repr
                  upstream_albums (Call_list_artists 0) 200 [] eq_refl)
      as [_ [_ Hone]].
    apply (Hone (-5)). lia.
Defined.

Lemma unlimited_tools_witness :
  (exists (url : string) (params : dict),
      snd (call_tool sample_url sample_key sample_user sample_repr upstream_albums
             (Call_get_album_tracks "album-id-123") [])
      = [(url, params)]
      /\ dict_get params "Limit" = None)
  /\ (exists (url : string) (params : dict),
         snd (call_tool sample_url sample_key sample_user sample_repr upstream_genres
                Call_list_genres [])
         = [(url, params)]
         /\ dict_get params "Limit" = Some (PInt 50)).
Proof.
  split.
  - exact (unlimited_tools sample_url sample_key sample_user sample_repr upstream_albums
             (Call_get_album_tracks "album-id-123") [] eq_refl eq_refl).
  - exact (unlimited_tools sample_url sample_key sample_user sample_repr upstream_genres
             Call_list_genres [] eq_refl eq_refl).
Defined.

Lemma library_stats_counts_witness :
  fst (library_stats sample_url sample_key sample_user upstream_counts [])
  = Ok (PDict [ ("songs", PInt 1234); ("albums", PNone); ("artists", PInt 0);
                ("movies", PInt 0); ("series", PInt 0); ("episodes", PInt 0) ]).
Proof.
  exact (proj1 (library_stats_counts sample_url sample_key sample_user upstream_counts []
                  ("http://jellyfin.local:8096/Items/Counts",
                   [("api_key", PStr "test-api-key")])
                  [("SongCount", PInt 1234); ("AlbumCount", PNone)]
                  eq_refl eq_refl eq_refl)).
Defined.

Lemma listing_envelope_witness :
  exists items : list pyval,
    fst (call_tool sample_url sample_key sample_user sample_repr upstream_albums
           (Call_list_albums "" "" "name" 50) [])
    = Ok (PDict [("total", PInt 40); ("items", PList items)])
    /\ List.length items = 2%nat.
Proof.
  pose proof (listing_envelope sample_url sample_key sample_user sample_repr upstream_albums
                (Call_list_albums "" "" "name" 50) []
                ("http://jellyfin.local:8096/Users/test-user-id/Items",
                 [ ("IncludeItemTypes", PStr "MusicAlbum"); ("Recursive", PStr "true");
                   ("Limit", PInt 50); ("SortBy", PStr "SortName");
                   ("SortOrder", PStr "Ascending");
                   ("Fields", PStr "Genres,Artists,AlbumArtist,ProductionYear");
                   ("api_key", PStr "test-api-key") ])
                [("TotalRecordCount", PInt 40); ("Items", PList sample_albums)]
                eq_refl eq_refl eq_refl eq_refl) as [_ [_ Hlist]].
  destruct (Hlist sample_albums eq_refl) as [Hres Htotal].
  destruct (Htotal eq_refl) as [result E].
  destruct (Hres result E) as [fields [items [-> Hp]]].
  exists items. split; [exact E|].
  symmetry. exact (Forall2_length Hp).
Defined.

Lemma unknown_type_fields_witness :
  (exists (total : pyval) (items : list pyval),
      fst (call_tool sample_url sample_key sample_user sample_repr upstream_latest
             (Call_get_recent "MusicArtist" 20) [])
      = Ok (PDict [("total", total); ("items", PList items)])
      /\ Forall2 (projects sample_url sample_key sample_repr ["id"; "name"; "type"; "year"])
                 sample_albums items)
  /\ (exists (total : pyval) (items : list pyval),
         fst (call_tool sample_url sample_key sample_user sample_repr upstream_albums
                (Call_search_media "x" "Episode" 20) [])
         = Ok (PDict [("total", total); ("items", PList items)])
         /\ Forall2 (projects sample_url sample_key sample_repr
                       ["id"; "name"; "type"; "year"])
                    sample_albums items).
Proof.
  split.
  - destruct (unknown_type_fields sample_url sample_key sample_user sample_repr
                upstream_latest (Call_get_recent "MusicArtist" 20) "MusicArtist" []
                ("http://jellyfin.local:8096/Users/test-user-id/Items/Latest",
                 [ ("IncludeItemTypes", PStr "MusicArtist"); ("Limit", PInt 20);
                   ("Fields", PStr "Genres,Artists,AlbumArtist,Album,ProductionYear");
                   ("api_key", PStr "test-api-key") ])
                (PList sample_albums) sample_albums eq_refl)
      as [Hres Htotal]; try reflexivity.
    + right. exists 20. split; [reflexivity|]. simpl. intuition discriminate.
    + right. split; [now exists 20 | reflexivity].
    + destruct (Htotal eq_refl) as [result E].
      destruct (Hres result E) as [total [items [-> Hp]]].
      exists total, items. split; [exact E | exact Hp].
  - destruct (unknown_type_fields sample_url sample_key sample_user sample_repr
                upstream_albums (Call_search_media "x" "Episode" 20) "Episode" []
                ("http://jellyfin.local:8096/Items",
                 [ ("searchTerm", PStr "x"); ("IncludeItemTypes", PStr "Episode");
                   ("Recursive", PStr "true"); ("Limit", PInt 20);
                   ("Fields",
                    PStr "Genres,Artists,AlbumArtist,Album,ProductionYear,RunTimeTicks");
                   ("api_key", PStr "test-api-key") ])
                (PDict [("TotalRecordCount", PInt 40); ("Items", PList sample_albums)])
                sample_albums eq_refl)
      as [Hres Htotal]; try reflexivity.
    + left. exists "x", 20. split; [reflexivity|]. simpl. intuition discriminate.
    + left. eexists. split; [reflexivity|]. left. reflexivity.
    + destruct (Htotal eq_refl) as [result E].
      destruct (Hres result E) as [total [items [-> Hp]]].
      exists total, items. split; [exact E | exact Hp].
Defined.

Lemma movies_series_sort_witness :
  exists (url : string) (params : dict),
    snd (call_tool sample_url sample_key sample_user sample_repr upstream_albums
           (Call_list_movies "" "title" 50) [])
    = [(url, params)]
    /\ dict_get params "SortBy" = Some (PStr "DateCreated")
    /\ dict_get params "SortOrder" = Some (PStr "Ascending").
Proof.
  destruct (movies_series_sort sample_url sample_key sample_user sample_repr upstream_albums
              (Call_list_movies "" "title" 50) "" "title" 50 [] eq_refl
              (or_introl eq_refl))
    as [url [params [sort_by [sort_order [Hlog [Hby [Horder [_ [Hunknown _]]]]]]]]].
  exists url, params. split; [exact Hlog|].
  assert (Hu : sort_by = "DateCreated" /\ sort_order = "Ascending").
  { apply Hunknown. simpl. intuition discriminate. }
  destruct Hu as [<- <-]. split; assumption.
Defined.

Lemma filters_when_given_witness :
  exists (url : string) (params : dict),
    snd (list_albums sample_url sample_key sample_user sample_repr upstream_albums
           "Queen" "" "name" 50 [])
    = [(url, params)]
    /\ dict_get params "Artists" = Some (PStr "Queen")
    /\ dict_get params "Genres" = None.
Proof.
  exact (proj1 (filters_when_given sample_url sample_key sample_user sample_repr
                  upstream_albums "Queen" "" "name" 50 [] eq_refl)).
Defined.

Lemma format_item_reads_only_witness :
  _format_item sample_url sample_key sample_repr
    (PDict (("UserData", PDict [("IsFavorite", PBool true)])
              :: (sample_song_object ++ [("Etag", PStr "e")])%list))
    ["id"; "name"; "artist"; "duration"; "api_stream"]
  = _format_item sample_url sample_key sample_repr sample_song
      ["id"; "name"; "artist"; "duration"; "api_stream"].
Proof.
  apply format_item_reads_only. intros k Hk.
  unfold read_keys in Hk. cbn [In] in Hk.
  repeat (destruct Hk as [<-|Hk]; [reflexivity|]). contradiction.
Defined.

Lemma format_item_first_error_witness :
  _format_item sample_url sample_key sample_repr
    (PDict [ ("Id", PStr "x"); ("Artists", PInt 5);
             ("RunTimeTicks", PFloat (S754_infinity false)) ])
    ["id"; "duration"; "artist"]
  = Raise ValueError
  /\ exists m : dict,
       _format_item sample_url sample_key sample_repr
         (PDict [ ("Id", PStr "x"); ("Artists", PInt 5);
                  ("RunTimeTicks", PFloat (S754_infinity false)) ])
         ["id"; "name"; "genre"]
       = Ok m.
Proof.
  split.
  - apply (format_item_first_error sample_url sample_key sample_repr
             (PDict [ ("Id", PStr "x"); ("Artists", PInt 5);
                      ("RunTimeTicks", PFloat (S754_infinity false)) ])
             ["id"; "duration"; "artist"]).
    exists ["id"], "duration", ["artist"]. split; [reflexivity|]. split.
    + apply mem_In. reflexivity.
    + split; [reflexivity|].
      intros g [<-|[]] _. eexists. reflexivity.
  - apply (format_item_first_error sample_url sample_key sample_repr
             (PDict [ ("Id", PStr "x"); ("Artists", PInt 5);
                      ("RunTimeTicks", PFloat (S754_infinity false)) ])
             ["id"; "name"; "genre"]).
    intros f Hf _. cbn [In] in Hf.
    repeat (destruct Hf as [<-|Hf]; [eexists; reflexivity|]). contradiction.
Defined.

Lemma first_element_only_witness :
  extract sample_url sample_key sample_repr "artist"
    (PDict [("Artists", PList [PStr "Queen"; PStr "David Bowie"])])
  = Ok (PStr "Queen")
  /\ dict_get [("id", PStr "x")] "artist" = None
  /\ extract sample_url sample_key sample_repr "stream_url"
       (PDict [("MediaSources",
                PList [ PDict [("Path", PStr "/music/a.flac")];
                        PDict [("Path", PStr "/music/a.mp3")] ])])
     = Ok (PStr "/music/a.flac")
  /\ extract sample_url sample_key sample_repr "artist" (PDict [("Artists", PStr "Queen")])
     = Ok (PStr "Q")
  /\ extract sample_url sample_key sample_repr "artist"
       (PDict [("Artists", PStr (String "195" (String "137" "dith")))])
     = Ok (PStr (String "195" (String "137" ""))).
Proof.
  split; [|split; [|split; [|split]]].
  - pose proof (first_element_only sample_url sample_key sample_repr
                  [("Artists", PList [PStr "Queen"; PStr "David Bowie"])]) as [Hartist _].
    apply (Hartist (PStr "Queen") [PStr "David Bowie"]). reflexivity.
  - pose proof (first_element_only sample_url sample_key sample_repr
                  [("Id", PStr "x"); ("Artists", PList [PNone; PStr "Queen"])])
      as [_ [_ [_ [Hnull _]]]].
    apply (Hnull [PStr "Queen"] ["id"; "artist"] [("id", PStr "x")]); reflexivity.
  - pose proof (first_element_only sample_url sample_key sample_repr
                  [("MediaSources",
                    PList [ PDict [("Path", PStr "/music/a.flac")];
                            PDict [("Path", PStr "/music/a.mp3")] ])])
      as [_ [_ [Hsource _]]].
    apply (Hsource [("Path", PStr "/music/a.flac")] [PDict [("Path", PStr "/music/a.mp3")]]).
    reflexivity.
  - pose proof (first_element_only sample_url sample_key sample_repr
                  [("Artists", PStr "Queen")]) as [_ [_ [_ [_ Hstr]]]].
    apply (Hstr "Q"%char "ueen"). reflexivity.
  - pose proof (first_element_only sample_url sample_key sample_repr
                  [("Artists", PStr (String "195" (String "137" "dith")))])
      as [_ [_ [_ [_ Hstr]]]].
    apply (Hstr "195"%char (String "137" "dith")). reflexivity.
Defined.

Lemma format_duration_same_seconds_witness :
  _format_duration (PInt 3300000000) = _format_duration (PInt 3309999999)
  /\ 3300000000 / 10000000 = 3309999999 / 10000000.
Proof.
  split; [|reflexivity].
  apply (format_duration_same_seconds 3300000000 3309999999); [lia | lia | reflexivity].
Defined.

Lemma stream_url_single_witness :
  exists m : dict,
    fst (get_stream_url sample_url sample_key sample_user sample_repr upstream_song
           "other-id" [])
    = Ok (PDict m)
    /\ dict_get m "id" = Some (PStr "abc123")
    /\ dict_get m "api_stream"
       = Some (PStr "http://jellyfin.local:8096/Audio/abc123/universal?api_key=test-api-key").
Proof.
  pose proof (stream_url_single sample_url sample_key sample_user sample_repr upstream_song
                "other-id" []
                ("http://jellyfin.local:8096/Users/test-user-id/Items/other-id",
                 [("Fields", PStr "MediaSources,Path"); ("api_key", PStr "test-api-key")])
                sample_song eq_refl eq_refl eq_refl) as [_ [_ [_ Hid]]].
  apply (Hid sample_song_object "abc123"); [reflexivity | reflexivity | reflexivity |].
  discriminate.
Defined.

Lemma one_request_witness :
  exists (path : string) (params : dict),
    snd (call_tool sample_url sample_key sample_user sample_repr upstream_down
           Call_library_stats [])
    = [(sample_url ++ path, params)]
    /\ dict_get params "api_key" = Some (PStr sample_key).
Proof.
  destruct (one_request sample_url sample_key sample_user sample_repr Call_library_stats []
              eq_refl) as [path [params [Hlog [_ Hkey]]]].
  exists path, params. split; [exact (Hlog upstream_down) | exact Hkey].
Defined.

Lemma user_id_use_witness :
  call_tool sample_url sample_key "alice" sample_repr upstream_genres Call_list_genres []
  = call_tool sample_url sample_key "bob" sample_repr upstream_genres Call_list_genres []
  /\ exists (rest : string) (params : dict),
       snd (call_tool sample_url sample_key "alice" sample_repr upstream_albums
              (Call_get_favorites 50) [])
       = [("http://jellyfin.local:8096/Users/alice" ++ rest, params)].
Proof.
  split.
  - apply (user_id_use sample_url sample_key sample_repr upstream_genres Call_list_genres []);
      [reflexivity | discriminate | discriminate].
  - apply (user_id_use sample_url sample_key sample_repr upstream_albums
             (Call_get_favorites 50) []); reflexivity.
Defined.

Lemma environment_configuration_witness :
  call_tool (env_JELLYFIN_URL (fun _ => None)) (env_JELLYFIN_API_KEY (fun _ => None))
    (env_JELLYFIN_USER_ID (fun _ => None)) sample_repr upstream_albums
    (Call_list_artists 50) []
  = (Ok (PDict [("error", PStr "JELLYFIN_URL not configured")]), [])
  /\ call_tool (env_JELLYFIN_URL sample_env) (env_JELLYFIN_API_KEY sample_env)
       (env_JELLYFIN_USER_ID sample_env) sample_repr upstream_albums
       (Call_list_artists 50) []
     = call_tool (env_JELLYFIN_URL sample_env_bare) (env_JELLYFIN_API_KEY sample_env_bare)
         (env_JELLYFIN_USER_ID sample_env_bare) sample_repr upstream_albums
         (Call_list_artists 50) [].
Proof.
  split.
  - apply (environment_configuration (fun _ => None) sample_repr upstream_albums
             (Call_list_artists 50) []).
    left. reflexivity.
  - apply (environment_configuration sample_env_bare sample_repr upstream_albums
             (Call_list_artists 50) [])
      with (s := "http://jellyfin.local:8096") (n := 2%nat); reflexivity.
Defined.

Lemma format_item_repetitions_witness :
  _format_item sample_url sample_key sample_repr sample_song ["name"; "id"; "name"; "id"]
  = _format_item sample_url sample_key sample_repr sample_song ["name"; "id"].
Proof.
  exact (proj1 (format_item_repetitions sample_url sample_key sample_repr sample_song
                  ["name"; "id"; "name"; "id"])).
Defined.

Lemma rstrip_slash_spec_witness :
  rstrip_slash "http://jellyfin.local:8096//" = rstrip_slash "http://jellyfin.local:8096"
  /\ rstrip_slash "a//b/" <> "a//b/".
Proof.
  split.
  - exact (proj2 (proj2 (proj2 (rstrip_slash_spec "http://jellyfin.local:8096"))) 2%nat).
  - exact (proj1 (proj2 (rstrip_slash_spec "a//b/")) "a//b").
Defined.
